(** * Evergreen task-matrix generator (build/generate-evergreen-config.py)

    A shallow embedding of the enumerate / filter / derive engine of
    [generate-evergreen-config.py]: the axis spaces, the constraint rules
    written with [require] / [prohibit] / [both_or_neither], the two
    generation loops and the derivation of names, tags, timeouts and
    dependencies, followed by the properties stated about them. *)

From stdpp Require Import base option list strings gmap.
From Stdlib Require Import ZArith.

Local Open Scope string_scope.
Local Open Scope list_scope.
Local Open Scope Z_scope.

(** ** Python values and exceptions *)

Module Py.

(** The axis values of the script are strings and the two booleans. *)
Inductive value : Type :=
| Str (s : string)
| Bool (b : bool).

#[global] Instance value_eq_dec : EqDecision value.
Proof. solve_decision. Defined.

Definition value_encode (v : value) : string + bool :=
  match v with
  | Str s => inl s
  | Bool b => inr b
  end.

Definition value_decode (x : string + bool) : value :=
  match x with
  | inl s => Str s
  | inr b => Bool b
  end.

(** Values are hashable: they can be members of a [set]. *)
#[global] Instance value_countable : Countable value.
Proof.
  refine (inj_countable' value_encode value_decode _).
  intros []; reflexivity.
Defined.

(** [bool(v)]: the empty string and [False] are falsy. *)
Definition truthy (v : value) : bool :=
  match v with
  | Str s => negb (String.eqb s "")
  | Bool b => b
  end.

(** [v == w]: a string never equals a boolean. *)
Definition eqb (v w : value) : bool :=
  match v, w with
  | Str s, Str s' => String.eqb s s'
  | Bool b, Bool b' => Bool.eqb b b'
  | _, _ => false
  end.

(** [v in (w0, w1, ...)]. *)
Definition member (v : value) (ws : list value) : bool :=
  existsb (eqb v) ws.

(** The exceptions the modelled code can raise. *)
Inductive exception : Type :=
| Prohibited
| AssertionError
| AttributeError
| TypeError.

#[global] Instance exception_eq_dec : EqDecision exception.
Proof. solve_decision. Defined.

(** A computation either raises or returns. *)
Inductive exn (A : Type) : Type :=
| Raise (e : exception)
| Return (a : A).
Arguments Raise {A} e.
Arguments Return {A} a.

Definition bind {A B} (f : A → exn B) (m : exn A) : exn B :=
  match m with
  | Raise e => Raise e
  | Return a => f a
  end.

#[global] Instance exn_eq_dec {A} `{EqDecision A} : EqDecision (exn A).
Proof. solve_decision. Defined.

#[global] Instance exn_ret : MRet exn := @Return.
#[global] Instance exn_bind : MBind exn := @bind.

(** [for x in xs: acc = step(acc, x)], stopping at the first exception. *)
Fixpoint for_each {A S} (step : S → A → exn S) (acc : S) (xs : list A)
  : exn S :=
  match xs with
  | [] => Return acc
  | x :: rest => acc' ← step acc x; for_each step acc' rest
  end.

(** [collections.OrderedDict]: keys in insertion order. *)
Definition OD (V : Type) : Type := list (string * V).

Definition OD_keys {V} (d : OD V) : list string := d.*1.
Definition OD_values {V} (d : OD V) : list V := d.*2.

Fixpoint OD_get {V} (d : OD V) (k : string) : option V :=
  match d with
  | [] => None
  | (k', v) :: rest => if String.eqb k' k then Some v else OD_get rest k
  end.

(** [d[k] = v]: overwrite in place, or append a new key. *)
Fixpoint OD_set {V} (d : OD V) (k : string) (v : V) : OD V :=
  match d with
  | [] => [(k, v)]
  | (k', v') :: rest =>
      if String.eqb k' k then (k', v) :: rest else (k', v') :: OD_set rest k v
  end.

(** [itertools.product] over a list of pools: the rightmost pool advances
    fastest. *)
Fixpoint product {A} (pools : list (list A)) : list (list A) :=
  match pools with
  | [] => [[]]
  | pool :: rest => x ← pool; (λ cell, x :: cell) <$> product rest
  end.

(** [sep.join(parts)]. *)
Definition join (sep : string) (parts : list string) : string :=
  String.concat sep parts.

(** Iterating over a [set] visits every distinct element once, in an
    order the language leaves open. *)
Class SetIteration := {
  set_iter : ∀ {A} `{EqDecision A}, list A → list A;
  set_iter_perm : ∀ {A} `{EqDecision A} (l : list A),
    set_iter l ≡ₚ remove_dups l
}.

(** One possible order: first occurrences, in the order of the input. *)
Definition insertion_order : SetIteration :=
  {| set_iter := λ A _ l, remove_dups l;
     set_iter_perm := λ A _ l, reflexivity (remove_dups l) |}.

End Py.

Import Py.

(** ** The Task base class *)

(** The attributes [Task.__init__] gives every task object, next to the
    fields [tuple] of the namedtuple the task class also derives from. *)
Record Task (T : Type) : Type := mkTask {
  tuple : T;
  tags : gset value;
  options : OD Z;
  depends_on : list string
}.
Arguments mkTask {T} _ _ _ _.
Arguments tuple {T} _.
Arguments tags {T} _.
Arguments options {T} _.
Arguments depends_on {T} _.

#[global] Instance Task_eq_dec {T} `{EqDecision T} : EqDecision (Task T).
Proof. solve_decision. Defined.

(** [Task.__init__]: no tags, no options, no dependencies. *)
Definition Task_init {T} (fields : T) : Task T :=
  {| tuple := fields; tags := ∅; options := []; depends_on := [] |}.

(** [task.tags.add(tag)]. *)
Definition tags_add {T} (tag : value) (task : Task T) : Task T :=
  {| tuple := tuple task; tags := tags task ∪ {[ tag ]};
     options := options task; depends_on := depends_on task |}.

(** [task.tags.update(new_tags)]. *)
Definition tags_update {T} (new_tags : list value) (task : Task T)
  : Task T :=
  {| tuple := tuple task; tags := tags task ∪ list_to_set new_tags;
     options := options task; depends_on := depends_on task |}.

(** [task.options[key] = v]. *)
Definition options_set {T} (key : string) (v : Z) (task : Task T) : Task T :=
  {| tuple := tuple task; tags := tags task;
     options := OD_set (options task) key v; depends_on := depends_on task |}.

(** [task.depends_on.append(dep)]. *)
Definition depends_on_append {T} (dep : string) (task : Task T) : Task T :=
  {| tuple := tuple task; tags := tags task;
     options := options task; depends_on := depends_on task ++ [dep] |}.

(** What a task class provides: its [name_prefix], attribute lookup by axis
    name (an [AttributeError] for any other name) and the constructor
    applied to a cell of the matrix (a [TypeError] on a wrong arity). *)
Class TaskClass (T : Type) : Type := {
  name_prefix : string;
  getattr : T → string → exn value;
  new : list value → exn T
}.

(** The body of [Task.display] once the attribute has been read: ["no"]
    and the axis name for [False], the axis name for [True], the value
    itself otherwise. *)
Definition display_value (axis_name : string) (v : value) : string :=
  match v with
  | Bool false => "no" +:+ axis_name
  | Bool true => axis_name
  | Str s => s
  end.

(** [Task.display]. *)
Definition display {T} `{TaskClass T} (self : T) (axis_name : string)
  : exn string :=
  v ← getattr self axis_name;
  mret (display_value axis_name v).

(** ** Integration tasks *)

Definition integration_task_axes : OD (list value) :=
  [ ("valgrind", [Str "valgrind"; Bool false]);
    ("asan", [Str "asan"; Bool false]);
    ("coverage", [Str "coverage"; Bool false]);
    ("version", [Str "latest"; Str "4.0"; Str "3.6"; Str "3.4"; Str "3.2";
                 Str "3.0"]);
    ("topology", [Str "server"; Str "replica_set"; Str "sharded_cluster"]);
    ("auth", [Bool true; Bool false]);
    ("sasl", [Str "sasl"; Str "sspi"; Bool false]);
    ("ssl", [Str "openssl"; Str "darwinssl"; Str "winssl"; Bool false]) ].

Record IntegrationTask : Type := mkIntegrationTask {
  valgrind : value;
  asan : value;
  coverage : value;
  version : value;
  topology : value;
  auth : value;
  sasl : value;
  ssl : value
}.

#[global] Instance IntegrationTask_eq_dec : EqDecision IntegrationTask.
Proof. solve_decision. Defined.

#[global] Instance IntegrationTask_class : TaskClass IntegrationTask := {|
  name_prefix := "test";
  getattr self axis_name :=
    if String.eqb axis_name "valgrind" then Return (valgrind self)
    else if String.eqb axis_name "asan" then Return (asan self)
    else if String.eqb axis_name "coverage" then Return (coverage self)
    else if String.eqb axis_name "version" then Return (version self)
    else if String.eqb axis_name "topology" then Return (topology self)
    else if String.eqb axis_name "auth" then Return (auth self)
    else if String.eqb axis_name "sasl" then Return (sasl self)
    else if String.eqb axis_name "ssl" then Return (ssl self)
    else Raise AttributeError;
  new cell :=
    match cell with
    | [v0; v1; v2; v3; v4; v5; v6; v7] =>
        Return (mkIntegrationTask v0 v1 v2 v3 v4 v5 v6 v7)
    | _ => Raise TypeError
    end
|}.

(** The inner function [name_part] of [IntegrationTask.name]. *)
Definition name_part (self : IntegrationTask) (axis_name : string)
  : exn string :=
  part ← display self axis_name;
  if String.eqb part "replica_set" then mret "replica-set"
  else if String.eqb part "sharded_cluster" then mret "sharded"
  else mret part.

(** The generator expression of [IntegrationTask.name]: an axis contributes
    when its value is truthy or it is one of auth, sasl, ssl. *)
Fixpoint name_parts (self : IntegrationTask) (axis_names : list string)
  : exn (list string) :=
  match axis_names with
  | [] => mret []
  | axis_name :: rest =>
      v ← getattr self axis_name;
      if truthy v || bool_decide (axis_name ∈ ["auth"; "sasl"; "ssl"]) then
        part ← name_part self axis_name;
        parts ← name_parts self rest;
        mret (part :: parts)
      else name_parts self rest
  end.

(** [IntegrationTask.name]. *)
Definition IntegrationTask_name (self : IntegrationTask) : exn string :=
  parts ← name_parts self (OD_keys integration_task_axes);
  mret (name_prefix (T := IntegrationTask) +:+ "-" +:+ join "-" parts).

(** ** Authentication tasks *)

Definition auth_task_axes : OD (list value) :=
  [ ("sasl", [Str "sasl"; Str "sspi"; Bool false]);
    ("ssl", [Str "openssl"; Str "darwinssl"; Str "winssl"]) ].

Record AuthTask : Type := mkAuthTask {
  auth_sasl : value;
  auth_ssl : value
}.

#[global] Instance AuthTask_eq_dec : EqDecision AuthTask.
Proof. solve_decision. Defined.

#[global] Instance AuthTask_class : TaskClass AuthTask := {|
  name_prefix := "authentication-tests";
  getattr self axis_name :=
    if String.eqb axis_name "sasl" then Return (auth_sasl self)
    else if String.eqb axis_name "ssl" then Return (auth_ssl self)
    else Raise AttributeError;
  new cell :=
    match cell with
    | [v0; v1] => Return (mkAuthTask v0 v1)
    | _ => Raise TypeError
    end
|}.

(** [AuthTask.name]. *)
Definition AuthTask_name (self : AuthTask) : exn string :=
  d ← display self "ssl";
  let rv := name_prefix (T := AuthTask) +:+ "-" +:+ d in
  if truthy (auth_sasl self) then mret rv else mret (rv +:+ "-nosasl").

(** ** The matrix *)

(** [matrix(cell_class, axes)]: one task object per cell of the product of
    the axis pools, collected in a [set].  Task objects hash and compare as
    the tuples they are, so the set is taken over the tuples; each object
    carries the attributes [Task.__init__] gave it. *)
Definition matrix `{SetIteration} {T} `{EqDecision T} `{TaskClass T}
  (axes : OD (list value)) : exn (list (Task T)) :=
  cells ← mapM new (product (OD_values axes));
  mret (Task_init <$> set_iter cells).

(** ** Constraint rules *)

Definition require (rule : value) : exn unit :=
  if negb (truthy rule) then Raise Prohibited else mret ().

Definition prohibit (rule : value) : exn unit :=
  if truthy rule then Raise Prohibited else mret ().

Definition both_or_neither (rule0 rule1 : value) : exn unit :=
  if truthy rule0 then require rule1 else prohibit rule1.

(** [v == w] and [v in ws] as the Python booleans they evaluate to. *)
Definition py_eq (v w : value) : value := Bool (eqb v w).
Definition py_in (v : value) (ws : list value) : value := Bool (member v ws).

Definition allow_integration_test_task (task : IntegrationTask) : exn unit :=
  (if truthy (valgrind task) then
     prohibit (asan task);;
     prohibit (sasl task);;
     require (py_in (ssl task) [Str "openssl"; Bool false]);;
     prohibit (coverage task);;
     if truthy (auth task) then require (py_eq (ssl task) (Str "openssl"))
     else prohibit (ssl task)
   else mret ());;
  (if truthy (auth task) then require (ssl task) else mret ());;
  (if eqb (sasl task) (Str "sspi") then
     require (py_eq (topology task) (Str "server"));;
     require (py_eq (version task) (Str "latest"));;
     require (py_eq (ssl task) (Str "winssl"));;
     require (auth task)
   else mret ());;
  (if negb (truthy (ssl task)) then prohibit (sasl task) else mret ());;
  (if truthy (coverage task) then
     prohibit (sasl task);;
     if truthy (auth task) then require (py_eq (ssl task) (Str "openssl"))
     else prohibit (ssl task)
   else mret ());;
  (if truthy (asan task) then
     prohibit (sasl task);;
     prohibit (coverage task);;
     if truthy (auth task) then require (py_eq (ssl task) (Str "openssl"))
     else prohibit (ssl task)
   else mret ()).

Definition allow_auth_test_task (task : AuthTask) : exn unit :=
  both_or_neither (py_eq (auth_ssl task) (Str "winssl"))
                  (py_eq (auth_sasl task) (Str "sspi"));;
  (if negb (truthy (auth_sasl task)) then
     require (py_eq (auth_ssl task) (Str "openssl"))
   else mret ()).

(** [try: allow(task) / except Prohibited: continue]: whether the loop body
    goes on with this task; any other exception propagates. *)
Definition allowed {T} (allow : T → exn unit) (task : Task T) : exn bool :=
  match allow (tuple task) with
  | Return _ => mret true
  | Raise Prohibited => mret false
  | Raise e => Raise e
  end.

(** ** Generation of the integration tasks *)

(** Tags and timeout of an accepted task (the first [if] chain of the loop
    body of [make_integration_test_tasks]). *)
Definition integration_tags (task : Task IntegrationTask)
  : exn (Task IntegrationTask) :=
  let self := tuple task in
  if truthy (valgrind self) then
    mret (options_set "exec_timeout_secs" 7200
            (tags_add (Str "test-valgrind") task))
  else if truthy (coverage self) then
    mret (options_set "exec_timeout_secs" 3600
            (tags_add (Str "test-coverage") task))
  else if truthy (asan self) then
    mret (options_set "exec_timeout_secs" 3600
            (tags_add (Str "test-asan") task))
  else
    let task := tags_add (topology self) task in
    let task := tags_add (version self) task in
    d_ssl ← display self "ssl";
    d_sasl ← display self "sasl";
    d_auth ← display self "auth";
    mret (tags_update [Str d_ssl; Str d_sasl; Str d_auth] task).

(** Dependency of an accepted task (the second [if] chain of the loop
    body). *)
Definition integration_depends_on (task : Task IntegrationTask)
  : exn (Task IntegrationTask) :=
  let self := tuple task in
  if truthy (valgrind self) then
    mret (depends_on_append "debug-compile-valgrind" task)
  else if truthy (asan self) && truthy (ssl self) then
    d_ssl ← display self "ssl";
    mret (depends_on_append ("debug-compile-asan-clang-" +:+ d_ssl) task)
  else if truthy (asan self) then
    if truthy (sasl self) then Raise AssertionError
    else mret (depends_on_append "debug-compile-asan-clang" task)
  else if negb (truthy (coverage self)) then
    d_sasl ← display self "sasl";
    d_ssl ← display self "ssl";
    mret (depends_on_append
            ("debug-compile-" +:+ d_sasl +:+ "-" +:+ d_ssl) task)
  else mret task.

(** What the loop body does to an accepted task before appending it. *)
Definition integration_derive (task : Task IntegrationTask)
  : exn (Task IntegrationTask) :=
  task ← integration_tags task;
  integration_depends_on task.

(** The body of the loop of [make_integration_test_tasks]. *)
Definition integration_step (tasks_list : list (Task IntegrationTask))
  (task : Task IntegrationTask) : exn (list (Task IntegrationTask)) :=
  ok ← allowed allow_integration_test_task task;
  if negb ok then mret tasks_list
  else
    task ← integration_derive task;
    mret (tasks_list ++ [task]).

Definition make_integration_test_tasks `{SetIteration}
  : exn (list (Task IntegrationTask)) :=
  m ← matrix integration_task_axes;
  for_each integration_step [] m.

(** ** Generation of the authentication tasks *)

(** What the loop body does to an accepted task before appending it: its
    tags, then its dependency. *)
Definition auth_derive (task : Task AuthTask) : exn (Task AuthTask) :=
  let self := tuple task in
  d_ssl ← display self "ssl";
  d_sasl ← display self "sasl";
  let task :=
    tags_update [Str "authentication-tests"; Str d_ssl; Str d_sasl] task in
  d_sasl ← display self "sasl";
  d_ssl ← display self "ssl";
  mret (depends_on_append
          ("debug-compile-" +:+ d_sasl +:+ "-" +:+ d_ssl) task).

(** The body of the loop of [make_auth_test_tasks]. *)
Definition auth_step (tasks_list : list (Task AuthTask))
  (task : Task AuthTask) : exn (list (Task AuthTask)) :=
  ok ← allowed allow_auth_test_task task;
  if negb ok then mret tasks_list
  else
    task ← auth_derive task;
    mret (tasks_list ++ [task]).

Definition make_auth_test_tasks `{SetIteration} : exn (list (Task AuthTask)) :=
  m ← matrix auth_task_axes;
  for_each auth_step [] m.

(** ** The catalog of compile tasks *)

(** A compile task is known by the name it was constructed with.  The
    environment of [compile.sh] and the extra commands of a compile task
    only reach its serialised form and are left out. *)
Record CompileTask : Type := mkCompileTask {
  compile_task_name : string
}.

(** [CompileTask.__init__], as far as name and tags go. *)
Definition CompileTask_new (name : string) (new_tags : list string)
  : Task CompileTask :=
  tags_update (Str <$> new_tags) (Task_init (mkCompileTask name)).

(** [SpecialTask.__init__]: a compile task that also carries the tag
    [special]. *)
Definition SpecialTask_new (name : string) (new_tags : list string)
  : Task CompileTask :=
  tags_update [Str "special"] (CompileTask_new name new_tags).

(** [CompileTask.name]. *)
Definition CompileTask_name (self : CompileTask) : string :=
  compile_task_name self.

Definition compile_tasks : list (Task CompileTask) :=
  [ CompileTask_new "debug-compile-compression-zlib" ["zlib"; "compression"];
    CompileTask_new "debug-compile-compression-snappy"
      ["snappy"; "compression"];
    CompileTask_new "debug-compile-compression"
      ["zlib"; "snappy"; "compression"];
    CompileTask_new "debug-compile-no-align" ["debug-compile"];
    CompileTask_new "debug-compile-nosasl-nossl"
      ["debug-compile"; "nosasl"; "nossl"];
    CompileTask_new "debug-compile-lto" [];
    CompileTask_new "debug-compile-lto-thin" [];
    SpecialTask_new "debug-compile-c11" ["debug-compile"; "c11"; "stdflags"];
    SpecialTask_new "debug-compile-c99" ["debug-compile"; "c99"; "stdflags"];
    SpecialTask_new "debug-compile-c89" ["debug-compile"; "c89"; "stdflags"];
    SpecialTask_new "debug-compile-valgrind" ["debug-compile"; "valgrind"];
    SpecialTask_new "debug-compile-coverage" ["debug-compile"; "coverage"];
    CompileTask_new "debug-compile-no-counters"
      ["debug-compile"; "no-counters"];
    SpecialTask_new "debug-compile-asan-clang" ["debug-compile"; "asan-clang"];
    SpecialTask_new "debug-compile-asan-gcc" [];
    SpecialTask_new "debug-compile-asan-clang-openssl"
      ["debug-compile"; "asan-clang"];
    SpecialTask_new "debug-compile-ubsan" [];
    SpecialTask_new "debug-compile-scan-build"
      ["clang"; "debug-compile"; "scan-build"] ].

(** The names of the catalog. *)
Definition compile_task_names : list string :=
  (λ task, CompileTask_name (tuple task)) <$> compile_tasks.

(** ** Generated tasks *)

(** [task] is one of the tasks a generation function returns. *)
Definition generated {T} (make : exn (list (Task T))) (task : Task T) : Prop :=
  ∃ tasks_list, make = Return tasks_list ∧ task ∈ tasks_list.

(** [c] is one of the candidates the matrix of [axes] holds. *)
Definition candidate `{SetIteration} {T} `{EqDecision T} `{TaskClass T}
  (axes : OD (list value)) (c : T) : Prop :=
  ∃ m, matrix axes = Return m ∧ Task_init c ∈ m.

(** The exec-timeout override of a task, if it has one. *)
Definition exec_timeout {T} (task : Task T) : option Z :=
  OD_get (options task) "exec_timeout_secs".

(** ** The specification's wording *)

Module Spec.

(** An axis is set when its value is not the falsy one. *)
Definition is_set (v : value) : Prop := truthy v = true.
Definition unset (v : value) : Prop := truthy v = false.

#[global] Instance is_set_dec v : Decision (is_set v).
Proof. unfold is_set. apply _. Defined.

#[global] Instance unset_dec v : Decision (unset v).
Proof. unfold unset. apply _. Defined.

(** The display token of an axis: ["no"] and the axis name when the axis
    is unset, the axis name for a bare [True], the value otherwise. *)
Definition display_token (axis_name : string) (v : value) : string :=
  if truthy v then
    match v with
    | Str s => s
    | Bool _ => axis_name
    end
  else "no" +:+ axis_name.

(** The two special renderings of name derivation. *)
Definition render (token : string) : string :=
  if String.eqb token "replica_set" then "replica-set"
  else if String.eqb token "sharded_cluster" then "sharded"
  else token.

(** The axes that contribute a token even when unset. *)
Definition always_named (axis_name : string) : bool :=
  bool_decide (axis_name ∈ ["auth"; "sasl"; "ssl"]).

(** The axis values of an integration task, in axis-declaration order. *)
Definition axis_values (t : IntegrationTask) : list (string * value) :=
  [ ("valgrind", valgrind t); ("asan", asan t); ("coverage", coverage t);
    ("version", version t); ("topology", topology t); ("auth", auth t);
    ("sasl", sasl t); ("ssl", ssl t) ].

(** Name of an integration task: the prefix, then the hyphen-joined tokens
    of the axes that are set or always named. *)
Definition integration_name (t : IntegrationTask) : string :=
  "test" +:+ "-" +:+
  join "-" ((λ av, render (display_token av.1 av.2)) <$>
            List.filter (λ av, truthy av.2 || always_named av.1)
                        (axis_values t)).

(** Name of an authentication task: the prefix and the ssl display token,
    with the suffix [-nosasl] when sasl is unset. *)
Definition auth_name (t : AuthTask) : string :=
  "authentication-tests" +:+ "-" +:+ display_token "ssl" (auth_ssl t) +:+
  (if truthy (auth_sasl t) then "" else "-nosasl").

(** With auth the ssl backend is openssl, without auth there is none. *)
Definition ssl_follows_auth (t : IntegrationTask) : bool :=
  if truthy (auth t) then eqb (ssl t) (Str "openssl")
  else negb (truthy (ssl t)).

(** The six integration-task rules. *)
Definition integration_rules (t : IntegrationTask) : bool :=
  implb (truthy (valgrind t))
        (negb (truthy (asan t)) && negb (truthy (sasl t))
         && member (ssl t) [Str "openssl"; Bool false]
         && negb (truthy (coverage t)) && ssl_follows_auth t)
  && implb (truthy (auth t)) (truthy (ssl t))
  && implb (eqb (sasl t) (Str "sspi"))
           (eqb (topology t) (Str "server") && eqb (version t) (Str "latest")
            && eqb (ssl t) (Str "winssl") && truthy (auth t))
  && implb (negb (truthy (ssl t))) (negb (truthy (sasl t)))
  && implb (truthy (coverage t))
           (negb (truthy (sasl t)) && ssl_follows_auth t)
  && implb (truthy (asan t))
           (negb (truthy (sasl t)) && negb (truthy (coverage t))
            && ssl_follows_auth t).

(** The two authentication-task rules. *)
Definition auth_rules (t : AuthTask) : bool :=
  Bool.eqb (eqb (auth_ssl t) (Str "winssl")) (eqb (auth_sasl t) (Str "sspi"))
  && implb (negb (truthy (auth_sasl t))) (eqb (auth_ssl t) (Str "openssl")).

End Spec.

(** ** Auxiliary definitions *)

(** The value a computation returns, if it returns. *)
Definition run {A} (m : exn A) : option A :=
  match m with
  | Return a => Some a
  | Raise _ => None
  end.

(** The tuples the task class builds from the cells of the product of the
    axis pools, in product order. *)
Definition cells {T} `{TaskClass T} (axes : OD (list value)) : list T :=
  omap (λ cell, run (new cell)) (product (OD_values axes)).

(** What a generation loop keeps of a task of the matrix. *)
Definition keep {T} (rules : T → bool) (derive : Task T → exn (Task T))
  (task : Task T) : option (Task T) :=
  if rules (tuple task) then run (derive task) else None.

(** The valgrind scenario: valgrind on the latest server, with auth over
    openssl and no sasl. *)
Definition valgrind_scenario : IntegrationTask :=
  {| valgrind := Str "valgrind"; asan := Bool false; coverage := Bool false;
     version := Str "latest"; topology := Str "server"; auth := Bool true;
     sasl := Bool false; ssl := Str "openssl" |}.

(** The task the loop makes of the valgrind scenario. *)
Definition valgrind_scenario_task : Task IntegrationTask :=
  {| tuple := valgrind_scenario;
     tags := {[ Str "test-valgrind" ]};
     options := [("exec_timeout_secs", 7200)];
     depends_on := ["debug-compile-valgrind"] |}.

(** The plain scenario: no valgrind, asan or coverage, the latest server
    with auth and sasl over openssl. *)
Definition plain_scenario : IntegrationTask :=
  {| valgrind := Bool false; asan := Bool false; coverage := Bool false;
     version := Str "latest"; topology := Str "server"; auth := Bool true;
     sasl := Str "sasl"; ssl := Str "openssl" |}.

(** The task the loop makes of the plain scenario. *)
Definition plain_scenario_task : Task IntegrationTask :=
  {| tuple := plain_scenario;
     tags := {[ Str "server"; Str "latest"; Str "openssl"; Str "sasl";
                Str "auth" ]};
     options := [];
     depends_on := ["debug-compile-sasl-openssl"] |}.

(** No axis value of the tuple is the empty string. *)
Definition no_empty_value (c : IntegrationTask) : Prop :=
  Forall (λ av : string * value, av.2 ≠ Str "") (Spec.axis_values c).

(** The compile task keyed by the sasl and ssl display tokens. *)
Definition keyed_compile_task (sasl_value ssl_value : value) : string :=
  "debug-compile-" +:+ display_value "sasl" sasl_value +:+ "-" +:+
  display_value "ssl" ssl_value.

(** Where the dependencies of an integration task are found: none for
    coverage; in the catalog for valgrind, asan and tasks without ssl;
    outside the catalog, under the keyed name, for the rest. *)
Definition integration_dependencies_found (task : Task IntegrationTask)
  : Prop :=
  (depends_on task = [] ↔ Spec.is_set (coverage (tuple task)))
  ∧ (Spec.is_set (valgrind (tuple task)) ∨ Spec.is_set (asan (tuple task))
     ∨ Spec.unset (ssl (tuple task)) →
     Forall (λ dep, dep ∈ compile_task_names) (depends_on task))
  ∧ (Spec.unset (valgrind (tuple task)) → Spec.unset (asan (tuple task)) →
     Spec.unset (coverage (tuple task)) → Spec.is_set (ssl (tuple task)) →
     depends_on task
     = [keyed_compile_task (sasl (tuple task)) (ssl (tuple task))]
     ∧ keyed_compile_task (sasl (tuple task)) (ssl (tuple task))
       ∉ compile_task_names).

(** Where the dependency of an authentication task is found: outside the
    catalog, under the keyed name. *)
Definition auth_dependencies_found (task : Task AuthTask) : Prop :=
  depends_on task
  = [keyed_compile_task (auth_sasl (tuple task)) (auth_ssl (tuple task))]
  ∧ keyed_compile_task (auth_sasl (tuple task)) (auth_ssl (tuple task))
    ∉ compile_task_names.

#[global] Instance from_option_dec {A} (P : A → Prop) (Q : Prop)
  `{∀ a, Decision (P a)} `{Decision Q} (o : option A) :
  Decision (from_option P Q o).
Proof. destruct o; apply _. Defined.

#[global] Instance integration_dependencies_found_dec task :
  Decision (integration_dependencies_found task).
Proof. unfold integration_dependencies_found. apply _. Defined.

#[global] Instance auth_dependencies_found_dec task :
  Decision (auth_dependencies_found task).
Proof. unfold auth_dependencies_found. apply _. Defined.

Ltac derive_cases c Hd :=
  unfold integration_derive, integration_tags, integration_depends_on in Hd;
  destruct (truthy (valgrind c)) eqn:Hvalgrind,
           (truthy (coverage c)) eqn:Hcoverage,
           (truthy (asan c)) eqn:Hasan,
           (truthy (ssl c)) eqn:Hssl,
           (truthy (sasl c)) eqn:Hsasl;
  repeat progress
    (simpl in Hd;
     rewrite ?Hvalgrind, ?Hcoverage, ?Hasan, ?Hssl, ?Hsasl in Hd);
  cbv [mret exn_ret] in Hd; simplify_eq; simpl.

Ltac split_rules Hr :=
  unfold Spec.integration_rules in Hr; simpl in Hr;
  repeat match goal with
    | H : _ && _ = true |- _ => apply andb_prop in H as [? ?]
    end;
  rewrite ?negb_true_iff in *.

(** ** Tags of a task *)

(** [Task.add_tags]: the arguments join the tags. *)
Definition add_tags {T} (args : list value) (self : Task T) : Task T :=
  tags_update args self.

(** [Task.has_tags]: whether one of the arguments is a tag of the task. *)
Definition has_tags {T} (args : list value) (self : Task T) : bool :=
  bool_decide (tags self ∩ list_to_set args ≠ ∅).

(** [Task.on_off] called with one positional argument, the form the script
    uses. *)
Definition on_off {T} `{TaskClass T} (self : T) (axis_name : string)
  : exn string :=
  v ← getattr self axis_name;
  mret (if truthy v then "on" else "off").

(** ** Serialised tasks *)

(** The Python objects a serialised task is made of: strings and booleans,
    integers, the set of tags, lists and dictionaries. *)
#[local] Unset Elimination Schemes.
Inductive obj : Type :=
| Atom (v : value)
| Int (z : Z)
| TagSet (s : gset value)
| List_ (l : list obj)
| Dict (d : list (string * obj)).
#[local] Set Elimination Schemes.

(** [d.update(pairs)] and [OrderedDict(pairs)]: a later pair with a key
    already there overwrites its value and keeps its place. *)
Definition OD_update {V} (d : OD V) (pairs : list (string * V)) : OD V :=
  foldl (λ d kv, OD_set d kv.1 kv.2) d pairs.

Definition OD_new {V} (pairs : list (string * V)) : OD V :=
  OD_update [] pairs.

(** The dictionary [to_dict] builds holds, under [commands], a list that
    the subclasses go on appending to after it was stored.  An entry is
    either an object of its own or that shared list. *)
Inductive slot : Type :=
| Holds (o : obj)
| Commands.

Record task_dict : Type := mk_task_dict {
  entries : OD slot;
  commands : list obj
}.

(** [commands.append(command)] on the shared list. *)
Definition commands_append (command : obj) (task : task_dict) : task_dict :=
  {| entries := entries task; commands := commands task ++ [command] |}.

(** The dictionary as it stands when [to_dict] hands it over. *)
Definition close (task : task_dict) : OD obj :=
  (λ entry : string * slot,
     (entry.1, match entry.2 with
               | Holds o => o
               | Commands => List_ (commands task)
               end)) <$> entries task.

(** [Task.to_dict], for a class whose [name] property is [name]. *)
Definition Task_to_dict {T} (name : T → exn string) (self : Task T)
  : exn task_dict :=
  n ← name (tuple self);
  let task :=
    OD_new [("name", Holds (Atom (Str n)));
            ("tags", Holds (TagSet (tags self)))] in
  let task :=
    OD_update task ((λ kv, (kv.1, Holds (Int kv.2))) <$> options self) in
  let task :=
    if bool_decide (depends_on self ≠ []) then
      OD_set task "depends_on"
        (Holds (Dict (OD_new ((λ dep, ("name", Atom (Str dep)))
                                <$> depends_on self))))
    else task in
  let task := OD_set task "commands" Commands in
  let commands :=
    match depends_on self with
    | [] => []
    | first :: _ =>
        [Dict (OD_new [("func", Atom (Str "fetch build"));
                       ("vars", Dict [("BUILD_NAME", Atom (Str first))])])]
    end in
  mret {| entries := task; commands := commands |}.

(** [IntegrationTask.to_dict]. *)
Definition IntegrationTask_to_dict (self : Task IntegrationTask)
  : exn task_dict :=
  task ← Task_to_dict IntegrationTask_name self;
  let c := tuple self in
  task ← (if truthy (coverage c) then
            d_sasl ← display c "sasl";
            d_ssl ← display c "ssl";
            mret (commands_append
                    (Dict (OD_new
                       [("func",
                         Atom (Str ("debug-compile-coverage-notest-" +:+
                                    d_sasl +:+ "-" +:+ d_ssl)))]))
                    task)
          else mret task);
  d_ssl ← display c "ssl";
  let task :=
    commands_append
      (Dict (OD_new
         [("func", Atom (Str "bootstrap mongo-orchestration"));
          ("vars", Dict (OD_new
             [("VERSION", Atom (version c));
              ("TOPOLOGY", Atom (topology c));
              ("AUTH", Atom (Str (if truthy (auth c) then "auth"
                                  else "noauth")));
              ("SSL", Atom (Str d_ssl))]))]))
      task in
  o_valgrind ← on_off c "valgrind";
  o_asan ← on_off c "asan";
  d_auth ← display c "auth";
  d_ssl ← display c "ssl";
  let task :=
    commands_append
      (Dict (OD_new
         [("func", Atom (Str "run tests"));
          ("vars", Dict (OD_new
             [("VALGRIND", Atom (Str o_valgrind));
              ("ASAN", Atom (Str o_asan));
              ("AUTH", Atom (Str d_auth));
              ("SSL", Atom (Str d_ssl))]))]))
      task in
  let task :=
    if truthy (coverage c) then
      commands_append
        (Dict (OD_new [("func", Atom (Str "update codecov.io"))])) task
    else task in
  mret task.

(** [AuthTask.to_dict]. *)
Definition AuthTask_to_dict (self : Task AuthTask) : exn task_dict :=
  task ← Task_to_dict AuthTask_name self;
  mret (commands_append
          (Dict (OD_new [("func", Atom (Str "run auth tests"))])) task).

(** Reading a serialised command: the entry of a dictionary, the string
    or boolean an entry holds, and the name of the function it calls. *)
Definition obj_get (o : obj) (key : string) : option obj :=
  match o with
  | Dict d => OD_get d key
  | _ => None
  end.

Definition obj_value (o : obj) : option value :=
  match o with
  | Atom v => Some v
  | _ => None
  end.

Definition command_func (command : obj) : option value :=
  obj_get command "func" ≫= obj_value.

Definition command_var (command : obj) (var : string) : option value :=
  vars ← obj_get command "vars";
  entry ← obj_get vars var;
  obj_value entry.

(** The command of a serialised task that calls [func], if there is
    one. *)
Definition find_command (func : string) (task : task_dict) : option obj :=
  head (filter (λ command, command_func command = Some (Str func))
          (commands task)).

(** ** Construction of compile tasks *)

(** The environment [CompileTask.__init__] makes of the keyword arguments
    [kwargs], the build [config] and the [compression]. *)
Definition compile_environment (config compression : string)
  (kwargs : gmap string string) : exn (gmap string string) :=
  opt ← (if String.eqb config "debug" then mret (<["DEBUG" := "ON"]> kwargs)
         else if String.eqb config "release" then
           mret (<["RELEASE" := "ON"]> kwargs)
         else Raise AssertionError);
  if negb (String.eqb compression "default") then
    let opt :=
      <["SNAPPY" := if bool_decide (compression ∈ ["all"; "snappy"])
                    then "ON" else "OFF"]> opt in
    mret (<["ZLIB" := if bool_decide (compression ∈ ["all"; "zlib"])
                      then "BUNDLED" else "OFF"]> opt)
  else mret opt.

(** The functions the commands of a serialised task call, in order. *)
Definition command_funcs (task : task_dict) : list (option value) :=
  command_func <$> commands task.

(** The variable [var] of the command of a serialised task that calls
    [func]. *)
Definition task_var (func var : string) (task : task_dict) : option value :=
  command ← find_command func task;
  command_var command var.

(** The name the [depends_on] entry of a serialised task holds. *)
Definition depends_on_entry (task : task_dict) : option value :=
  entry ← OD_get (close task) "depends_on";
  name ← obj_get entry "name";
  obj_value name.

(** Keys and commands of a serialised integration task. *)
Definition integration_dict_shape (task : Task IntegrationTask)
  (d : task_dict) : Prop :=
  OD_keys (close d)
  = ["name"; "tags"]
    ++ (if truthy (valgrind (tuple task)) || truthy (coverage (tuple task))
           || truthy (asan (tuple task))
        then ["exec_timeout_secs"] else [])
    ++ (if truthy (coverage (tuple task)) then [] else ["depends_on"])
    ++ ["commands"]
  ∧ command_funcs d
    = (if truthy (coverage (tuple task)) then
         [Some (Str ("debug-compile-coverage-notest-"
                     +:+ display_value "sasl" (sasl (tuple task))
                     +:+ "-" +:+ display_value "ssl" (ssl (tuple task))))]
       else [Some (Str "fetch build")])
      ++ [Some (Str "bootstrap mongo-orchestration"); Some (Str "run tests")]
      ++ (if truthy (coverage (tuple task)) then
            [Some (Str "update codecov.io")]
          else []).

(** Variables of the commands of a serialised integration task. *)
Definition integration_dict_vars (task : Task IntegrationTask)
  (d : task_dict) : Prop :=
  task_var "fetch build" "BUILD_NAME" d = Str <$> head (depends_on task)
  ∧ depends_on_entry d = Str <$> head (depends_on task)
  ∧ task_var "bootstrap mongo-orchestration" "VERSION" d
    = Some (version (tuple task))
  ∧ task_var "bootstrap mongo-orchestration" "TOPOLOGY" d
    = Some (topology (tuple task))
  ∧ task_var "bootstrap mongo-orchestration" "AUTH" d
    = Some (Str (display_value "auth" (auth (tuple task))))
  ∧ task_var "run tests" "AUTH" d
    = Some (Str (display_value "auth" (auth (tuple task))))
  ∧ task_var "bootstrap mongo-orchestration" "SSL" d
    = Some (Str (display_value "ssl" (ssl (tuple task))))
  ∧ task_var "run tests" "SSL" d
    = Some (Str (display_value "ssl" (ssl (tuple task))))
  ∧ task_var "run tests" "VALGRIND" d
    = Some (Str (if truthy (valgrind (tuple task)) then "on" else "off"))
  ∧ task_var "run tests" "ASAN" d
    = Some (Str (if truthy (asan (tuple task)) then "on" else "off")).

(** Keys, commands and dependency of a serialised authentication task. *)
Definition auth_dict_shape (task : Task AuthTask) (d : task_dict) : Prop :=
  OD_keys (close d) = ["name"; "tags"; "depends_on"; "commands"]
  ∧ command_funcs d = [Some (Str "fetch build"); Some (Str "run auth tests")]
  ∧ task_var "fetch build" "BUILD_NAME" d
    = Some (Str (keyed_compile_task (auth_sasl (tuple task))
                   (auth_ssl (tuple task))))
  ∧ depends_on_entry d
    = Some (Str (keyed_compile_task (auth_sasl (tuple task))
                   (auth_ssl (tuple task)))).

#[global] Instance integration_dict_shape_dec task d :
  Decision (integration_dict_shape task d).
Proof. unfold integration_dict_shape. apply _. Defined.

#[global] Instance integration_dict_vars_dec task d :
  Decision (integration_dict_vars task d).
Proof. unfold integration_dict_vars. apply _. Defined.

#[global] Instance auth_dict_shape_dec task d :
  Decision (auth_dict_shape task d).
Proof. unfold auth_dict_shape. apply _. Defined.

Ltac invert_Forall2 H :=
  repeat (apply Forall2_cons in H as [? H]).

Ltac axis_of_table Hall Hin :=
  repeat (apply elem_of_cons in Hin as [Hin|Hin];
          [injection Hin as -> ->; eexists; split; [reflexivity | done] |]);
  by apply elem_of_nil in Hin.

Ltac axis_in_pool Hall :=
  match goal with
  | |- (?a, _).2 ∈ ?pool =>
      let v := fresh "v" in
      let Hget := fresh "Hget" in
      let Hv := fresh "Hv" in
      destruct (Hall a pool) as (v & Hget & Hv);
      [repeat first [by left | right]
      |simpl in Hget; injection Hget as <-; exact Hv]
  end.

(** * Properties *)

(** ** The exception monad and the loops *)

Lemma bind_Return {A B} (f : A → exn B) (a : A) : (Return a ≫= f) = f a.
Proof. reflexivity. Qed.

(** A loop whose body appends at most one element per round and never
    raises collects the elements its body keeps, in iteration order. *)
Lemma for_each_collect {A B} (step : list B → A → exn (list B))
  (keep : A → option B) (xs : list A) :
  (∀ acc x, x ∈ xs → step acc x = Return (acc ++ option_list (keep x))) →
  ∀ acc, for_each step acc xs = Return (acc ++ omap keep xs).
Proof.
  induction xs as [|x xs IH]; intros Hstep acc; simpl.
  - by rewrite app_nil_r.
  - rewrite Hstep by left. rewrite bind_Return.
    rewrite IH by (intros; apply Hstep; by right).
    destruct (keep x); simpl; by rewrite <- ?app_assoc, ?app_nil_r.
Qed.

Lemma elem_of_set_iter `{SetIteration} {A} `{EqDecision A} (l : list A) x :
  x ∈ set_iter l ↔ x ∈ l.
Proof. by rewrite set_iter_perm, elem_of_remove_dups. Qed.

Lemma eqb_eq (v w : value) : eqb v w = true ↔ v = w.
Proof.
  destruct v as [s|b], w as [s'|b']; simpl; try (split; [done|congruence]).
  - rewrite String.eqb_eq. split; congruence.
  - rewrite Bool.eqb_true_iff. split; congruence.
Qed.

(** ** The constraint rules *)

(** The rule chain of integration tasks raises [Prohibited] exactly when
    one of the six rules fails, and nothing else. *)
Lemma allow_integration_rules (t : IntegrationTask) :
  allow_integration_test_task t =
  if Spec.integration_rules t then Return () else Raise Prohibited.
Proof.
  destruct t as [vg asn cov ver top au sa ss].
  unfold allow_integration_test_task, Spec.integration_rules,
    Spec.ssl_follows_auth, require, prohibit, py_eq, py_in, member; simpl.
  generalize (truthy vg) (truthy asn) (truthy cov) (truthy au) (truthy sa)
    (truthy ss) (eqb ss (Str "openssl")) (eqb ss (Bool false))
    (eqb ss (Str "winssl")) (eqb sa (Str "sspi")) (eqb top (Str "server"))
    (eqb ver (Str "latest")).
  intros [] [] [] [] [] [] [] [] [] [] [] []; reflexivity.
Qed.

Lemma allow_auth_rules (t : AuthTask) :
  allow_auth_test_task t =
  if Spec.auth_rules t then Return () else Raise Prohibited.
Proof.
  destruct t as [sa ss].
  unfold allow_auth_test_task, Spec.auth_rules, both_or_neither, require,
    prohibit, py_eq; simpl.
  generalize (truthy sa) (eqb ss (Str "winssl")) (eqb sa (Str "sspi"))
    (eqb ss (Str "openssl")).
  intros [] [] [] []; reflexivity.
Qed.

(** ** The matrices *)

Lemma matrix_integration `{SetIteration} :
  matrix integration_task_axes
  = Return (Task_init <$> set_iter (cells (T := IntegrationTask)
                                      integration_task_axes)).
Proof.
  unfold matrix.
  assert (mapM (new (T := IntegrationTask))
            (product (OD_values integration_task_axes))
          = Return (cells integration_task_axes)) as ->
    by (vm_compute; reflexivity).
  reflexivity.
Qed.

Lemma matrix_auth `{SetIteration} :
  matrix auth_task_axes
  = Return (Task_init <$> set_iter (cells (T := AuthTask) auth_task_axes)).
Proof.
  unfold matrix.
  assert (mapM (new (T := AuthTask)) (product (OD_values auth_task_axes))
          = Return (cells auth_task_axes)) as ->
    by (vm_compute; reflexivity).
  reflexivity.
Qed.

Lemma candidate_integration `{SetIteration} (c : IntegrationTask) :
  candidate integration_task_axes c ↔ c ∈ cells integration_task_axes.
Proof.
  unfold candidate. rewrite matrix_integration. split.
  - intros (m & Hm & Hin). simplify_eq.
    apply list_elem_of_fmap in Hin as (c' & Hc & Hin).
    simplify_eq. by rewrite elem_of_set_iter in Hin.
  - intros Hin. eexists; split; [done|].
    apply list_elem_of_fmap. exists c. by rewrite elem_of_set_iter.
Qed.

Lemma candidate_auth `{SetIteration} (c : AuthTask) :
  candidate auth_task_axes c ↔ c ∈ cells auth_task_axes.
Proof.
  unfold candidate. rewrite matrix_auth. split.
  - intros (m & Hm & Hin). simplify_eq.
    apply list_elem_of_fmap in Hin as (c' & Hc & Hin).
    simplify_eq. by rewrite elem_of_set_iter in Hin.
  - intros Hin. eexists; split; [done|].
    apply list_elem_of_fmap. exists c. by rewrite elem_of_set_iter.
Qed.

(** ** The generation loops *)

Section generation.
Context {T : Type}.
Variable allow : T → exn unit.
Variable rules : T → bool.
Variable derive : Task T → exn (Task T).
Variable step : list (Task T) → Task T → exn (list (Task T)).

Hypothesis step_body : ∀ acc task,
  step acc task =
  (ok ← allowed allow task;
   if negb ok then mret acc
   else task' ← derive task; mret (acc ++ [task'])).
Hypothesis allow_rules : ∀ t,
  allow t = if rules t then Return () else Raise Prohibited.
Hypothesis derive_total : ∀ task,
  rules (tuple task) = true → ∃ task', derive task = Return task'.

Lemma step_keeps acc task :
  step acc task = Return (acc ++ option_list (keep rules derive task)).
Proof.
  rewrite step_body. unfold allowed, keep. rewrite allow_rules.
  destruct (rules (tuple task)) eqn:Hr; simpl.
  - destruct (derive_total task Hr) as [task' ->]. reflexivity.
  - by rewrite app_nil_r.
Qed.

Lemma loop_keeps m :
  for_each step [] m = Return (omap (keep rules derive) m).
Proof.
  rewrite (for_each_collect step (keep rules derive)); [done|].
  intros; apply step_keeps.
Qed.

Lemma keep_Some task task' :
  keep rules derive task = Some task' ↔
  rules (tuple task) = true ∧ derive task = Return task'.
Proof.
  unfold keep. destruct (rules (tuple task)).
  - destruct (derive task); simpl; split.
    + done.
    + by intros [_ ?].
    + by intros [= ->].
    + by intros [_ [= ->]].
  - split; [done | by intros [? _]].
Qed.
End generation.

(** Tags and timeout are derived without an exception. *)
Lemma integration_tags_total (task : Task IntegrationTask) :
  ∃ task', integration_tags task = Return task' ∧ tuple task' = tuple task.
Proof.
  unfold integration_tags.
  destruct (truthy (valgrind (tuple task))); [by eexists|].
  destruct (truthy (coverage (tuple task))); [by eexists|].
  destruct (truthy (asan (tuple task))); [by eexists|].
  by eexists.
Qed.

(** For a task the rules accept, the assertion of the dependency chain
    holds: the derivation returns. *)
Lemma integration_derive_total (task : Task IntegrationTask) :
  Spec.integration_rules (tuple task) = true →
  ∃ task', integration_derive task = Return task'.
Proof.
  intros Hr. unfold integration_derive.
  destruct (integration_tags_total task) as (task1 & -> & Htuple).
  rewrite bind_Return. unfold integration_depends_on. rewrite Htuple.
  unfold Spec.integration_rules in Hr.
  destruct (truthy (valgrind (tuple task))); [by eexists|].
  destruct (truthy (asan (tuple task))); simpl.
  - destruct (truthy (ssl (tuple task))); [by eexists|].
    destruct (truthy (sasl (tuple task))); [|by eexists].
    exfalso. simpl in Hr. by rewrite !andb_false_r in Hr.
  - destruct (truthy (coverage (tuple task))); by eexists.
Qed.

Lemma auth_derive_total (task : Task AuthTask) :
  ∃ task', auth_derive task = Return task'.
Proof. by eexists. Qed.

(** The integration loop returns what it keeps of the matrix. *)
Lemma make_integration_returns `{SetIteration} :
  make_integration_test_tasks =
  Return (omap (keep Spec.integration_rules integration_derive)
            (Task_init <$> set_iter (cells integration_task_axes))).
Proof.
  unfold make_integration_test_tasks.
  rewrite matrix_integration, bind_Return.
  apply (loop_keeps allow_integration_test_task); [done | |].
  - apply allow_integration_rules.
  - apply integration_derive_total.
Qed.

Lemma make_auth_returns `{SetIteration} :
  make_auth_test_tasks =
  Return (omap (keep Spec.auth_rules auth_derive)
            (Task_init <$> set_iter (cells auth_task_axes))).
Proof.
  unfold make_auth_test_tasks. rewrite matrix_auth, bind_Return.
  apply (loop_keeps allow_auth_test_task); [done | |].
  - apply allow_auth_rules.
  - intros; apply auth_derive_total.
Qed.

(** A generated integration task is the derivation of an accepted cell. *)
Lemma generated_integration `{SetIteration} (task : Task IntegrationTask) :
  generated make_integration_test_tasks task ↔
  ∃ c, c ∈ cells integration_task_axes
       ∧ Spec.integration_rules c = true
       ∧ integration_derive (Task_init c) = Return task.
Proof.
  unfold generated. rewrite make_integration_returns. split.
  - intros (l & Hl & Hin). simplify_eq.
    apply list_elem_of_omap in Hin as (task0 & Hin & Hkeep).
    apply list_elem_of_fmap in Hin as (c & -> & Hin).
    rewrite elem_of_set_iter in Hin.
    apply keep_Some in Hkeep as [? ?]. by exists c.
  - intros (c & Hin & Hr & Hd). eexists; split; [done|].
    apply list_elem_of_omap. exists (Task_init c). split.
    + apply list_elem_of_fmap. exists c. by rewrite elem_of_set_iter.
    + by apply keep_Some.
Qed.

Lemma generated_auth `{SetIteration} (task : Task AuthTask) :
  generated make_auth_test_tasks task ↔
  ∃ c, c ∈ cells auth_task_axes
       ∧ Spec.auth_rules c = true
       ∧ auth_derive (Task_init c) = Return task.
Proof.
  unfold generated. rewrite make_auth_returns. split.
  - intros (l & Hl & Hin). simplify_eq.
    apply list_elem_of_omap in Hin as (task0 & Hin & Hkeep).
    apply list_elem_of_fmap in Hin as (c & -> & Hin).
    rewrite elem_of_set_iter in Hin.
    apply keep_Some in Hkeep as [? ?]. by exists c.
  - intros (c & Hin & Hr & Hd). eexists; split; [done|].
    apply list_elem_of_omap. exists (Task_init c). split.
    + apply list_elem_of_fmap. exists c. by rewrite elem_of_set_iter.
    + by apply keep_Some.
Qed.

(** ** Scenarios *)

Lemma valgrind_scenario_cell :
  valgrind_scenario ∈ cells integration_task_axes.
Proof. apply (bool_decide_unpack _). vm_compute. reflexivity. Qed.

Lemma valgrind_scenario_derive :
  integration_derive (Task_init valgrind_scenario)
  = Return valgrind_scenario_task.
Proof. vm_compute. reflexivity. Qed.

Lemma valgrind_scenario_generated `{SetIteration} :
  generated make_integration_test_tasks valgrind_scenario_task.
Proof.
  apply generated_integration. exists valgrind_scenario.
  split; [apply valgrind_scenario_cell|].
  split; [reflexivity | apply valgrind_scenario_derive].
Qed.

(** ** What the derivation gives an accepted integration task *)

Lemma derive_tuple c task :
  integration_derive (Task_init c) = Return task → tuple task = c.
Proof. intros Hd. derive_cases c Hd; reflexivity. Qed.

Lemma derive_tags c task :
  integration_derive (Task_init c) = Return task →
  tags task =
  if truthy (valgrind c) then {[ Str "test-valgrind" ]}
  else if truthy (coverage c) then {[ Str "test-coverage" ]}
  else if truthy (asan c) then {[ Str "test-asan" ]}
  else {[ topology c; version c; Str (display_value "ssl" (ssl c));
          Str (display_value "sasl" (sasl c));
          Str (display_value "auth" (auth c)) ]}.
Proof.
  intros Hd. derive_cases c Hd; rewrite ?Hvalgrind, ?Hcoverage, ?Hasan;
    rewrite ?(left_id_L ∅ (∪)), ?(right_id_L ∅ (∪)), ?(assoc_L (∪));
    reflexivity.
Qed.

Lemma derive_options c task :
  integration_derive (Task_init c) = Return task →
  options task =
  if truthy (valgrind c) then [("exec_timeout_secs", 7200)]
  else if truthy (coverage c) then [("exec_timeout_secs", 3600)]
  else if truthy (asan c) then [("exec_timeout_secs", 3600)]
  else [].
Proof.
  intros Hd. derive_cases c Hd; rewrite ?Hvalgrind, ?Hcoverage, ?Hasan;
    reflexivity.
Qed.

Lemma derive_depends_on c task :
  integration_derive (Task_init c) = Return task →
  depends_on task =
  if truthy (valgrind c) then ["debug-compile-valgrind"]
  else if truthy (asan c) && truthy (ssl c) then
    ["debug-compile-asan-clang-" +:+ display_value "ssl" (ssl c)]
  else if truthy (asan c) then ["debug-compile-asan-clang"]
  else if truthy (coverage c) then []
  else ["debug-compile-" +:+ display_value "sasl" (sasl c) +:+ "-" +:+
        display_value "ssl" (ssl c)].
Proof.
  intros Hd. derive_cases c Hd;
    rewrite ?Hvalgrind, ?Hcoverage, ?Hasan, ?Hssl; reflexivity.
Qed.

(** What the rules say once a task is accepted. *)
Lemma rules_valgrind c :
  Spec.integration_rules c = true → truthy (valgrind c) = true →
  truthy (asan c) = false ∧ truthy (sasl c) = false
  ∧ truthy (coverage c) = false
  ∧ member (ssl c) [Str "openssl"; Bool false] = true
  ∧ Spec.ssl_follows_auth c = true.
Proof.
  intros Hr Hvg. unfold Spec.integration_rules in Hr. rewrite Hvg in Hr.
  split_rules Hr. done.
Qed.

Lemma rules_auth c :
  Spec.integration_rules c = true → truthy (auth c) = true →
  truthy (ssl c) = true.
Proof.
  intros Hr Hauth. unfold Spec.integration_rules in Hr.
  rewrite Hauth in Hr. split_rules Hr. done.
Qed.

Lemma rules_asan c :
  Spec.integration_rules c = true → truthy (asan c) = true →
  truthy (sasl c) = false ∧ truthy (coverage c) = false
  ∧ Spec.ssl_follows_auth c = true.
Proof.
  intros Hr Hasan. unfold Spec.integration_rules in Hr.
  rewrite Hasan in Hr. split_rules Hr. done.
Qed.

Lemma rules_coverage c :
  Spec.integration_rules c = true → truthy (coverage c) = true →
  truthy (sasl c) = false ∧ Spec.ssl_follows_auth c = true.
Proof.
  intros Hr Hcov. unfold Spec.integration_rules in Hr.
  rewrite Hcov in Hr. split_rules Hr. done.
Qed.

Lemma rules_nossl c :
  Spec.integration_rules c = true → truthy (ssl c) = false →
  truthy (sasl c) = false.
Proof.
  intros Hr Hssl. unfold Spec.integration_rules in Hr.
  rewrite Hssl in Hr. split_rules Hr. done.
Qed.

(** (C3) Rule soundness.  For every integration task that survives
    filtering: when valgrind is set, asan, sasl and coverage are unset and
    ssl is ['openssl'] or [False], being ['openssl'] exactly when auth is
    set; and when auth is set, ssl is set. *)
Theorem C3_rule_soundness `{SetIteration} (task : Task IntegrationTask) :
  generated make_integration_test_tasks task →
  (Spec.is_set (valgrind (tuple task)) →
     Spec.unset (asan (tuple task))
     ∧ Spec.unset (sasl (tuple task))
     ∧ Spec.unset (coverage (tuple task))
     ∧ (ssl (tuple task) = Str "openssl" ∨ ssl (tuple task) = Bool false)
     ∧ (ssl (tuple task) = Str "openssl" ↔ Spec.is_set (auth (tuple task))))
  ∧ (Spec.is_set (auth (tuple task)) → Spec.is_set (ssl (tuple task))).
Proof.
  intros (c & _ & Hr & Hd)%generated_integration.
  rewrite (derive_tuple _ _ Hd). unfold Spec.is_set, Spec.unset. split.
  - intros Hvg.
    destruct (rules_valgrind c Hr Hvg) as (Hasan & Hsasl & Hcov & Hin & Hfa).
    repeat split; try done.
    + unfold member in Hin; simpl in Hin.
      apply orb_prop in Hin as [?%eqb_eq | Hin]; [by left|].
      rewrite orb_false_r in Hin. apply eqb_eq in Hin. by right.
    + intros Hssl. unfold Spec.ssl_follows_auth in Hfa.
      destruct (truthy (auth c)); [done|]. by rewrite Hssl in Hfa.
    + intros Hauth. unfold Spec.ssl_follows_auth in Hfa.
      rewrite Hauth in Hfa. by apply eqb_eq.
  - apply rules_auth, Hr.
Qed.

Lemma C3_rule_soundness_witness :
  (Spec.is_set (valgrind valgrind_scenario) →
     Spec.unset (asan valgrind_scenario)
     ∧ Spec.unset (sasl valgrind_scenario)
     ∧ Spec.unset (coverage valgrind_scenario)
     ∧ (ssl valgrind_scenario = Str "openssl"
        ∨ ssl valgrind_scenario = Bool false)
     ∧ (ssl valgrind_scenario = Str "openssl"
        ↔ Spec.is_set (auth valgrind_scenario)))
  ∧ (Spec.is_set (auth valgrind_scenario)
     → Spec.is_set (ssl valgrind_scenario)).
Proof.
  apply (@C3_rule_soundness insertion_order valgrind_scenario_task).
  apply valgrind_scenario_generated.
Defined.

(** (C6) Dependency derivation.  For every surviving integration task the
    dependency list follows the priority order: valgrind gives exactly the
    valgrind compile task; otherwise asan with ssl set gives the asan
    compile task keyed by the ssl display token; otherwise asan gives the
    generic asan compile task; otherwise coverage gives no dependency;
    otherwise the one dependency is the compile task keyed by the sasl and
    ssl display tokens. *)
Theorem C6_dependency_priority `{SetIteration} (task : Task IntegrationTask) :
  generated make_integration_test_tasks task →
  depends_on task =
  if truthy (valgrind (tuple task)) then ["debug-compile-valgrind"]
  else if truthy (asan (tuple task)) && truthy (ssl (tuple task)) then
    ["debug-compile-asan-clang-" +:+ display_value "ssl" (ssl (tuple task))]
  else if truthy (asan (tuple task)) then ["debug-compile-asan-clang"]
  else if truthy (coverage (tuple task)) then []
  else ["debug-compile-" +:+ display_value "sasl" (sasl (tuple task))
        +:+ "-" +:+ display_value "ssl" (ssl (tuple task))].
Proof.
  intros (c & _ & _ & Hd)%generated_integration.
  rewrite (derive_tuple _ _ Hd). by apply derive_depends_on.
Qed.

Lemma C6_dependency_priority_witness :
  depends_on valgrind_scenario_task = ["debug-compile-valgrind"].
Proof.
  apply (@C6_dependency_priority insertion_order valgrind_scenario_task).
  apply valgrind_scenario_generated.
Defined.

(** (C8) Tags and timeout.  For every surviving integration task at most
    one of valgrind, coverage, asan is set.  If one is set, the tags are
    exactly the tag of that mode and the exec timeout is overridden, with
    7200 seconds for valgrind and 3600 seconds for coverage and asan.  If
    none is set, the tags are the topology, the version and the display
    tokens of ssl, sasl and auth, and the options hold no timeout. *)
Theorem C8_tags_and_timeout `{SetIteration} (task : Task IntegrationTask) :
  generated make_integration_test_tasks task →
  let c := tuple task in
  ¬ (Spec.is_set (valgrind c) ∧ Spec.is_set (coverage c))
  ∧ ¬ (Spec.is_set (valgrind c) ∧ Spec.is_set (asan c))
  ∧ ¬ (Spec.is_set (coverage c) ∧ Spec.is_set (asan c))
  ∧ (Spec.is_set (valgrind c) →
       tags task = {[ Str "test-valgrind" ]}
       ∧ exec_timeout task = Some 7200)
  ∧ (Spec.is_set (coverage c) →
       tags task = {[ Str "test-coverage" ]}
       ∧ exec_timeout task = Some 3600)
  ∧ (Spec.is_set (asan c) →
       tags task = {[ Str "test-asan" ]}
       ∧ exec_timeout task = Some 3600)
  ∧ (Spec.unset (valgrind c) → Spec.unset (coverage c) →
     Spec.unset (asan c) →
       tags task = {[ topology c; version c;
                      Str (display_value "ssl" (ssl c));
                      Str (display_value "sasl" (sasl c));
                      Str (display_value "auth" (auth c)) ]}
       ∧ exec_timeout task = None
       ∧ options task = []).
Proof.
  intros (c & _ & Hr & Hd)%generated_integration. simpl.
  rewrite (derive_tuple _ _ Hd). unfold Spec.is_set, Spec.unset, exec_timeout.
  rewrite (derive_tags _ _ Hd), (derive_options _ _ Hd).
  assert (truthy (valgrind c) = true →
          truthy (coverage c) = false ∧ truthy (asan c) = false) as Hvg.
  { intros Hvg. by destruct (rules_valgrind c Hr Hvg) as (? & _ & ? & _). }
  assert (truthy (asan c) = true → truthy (coverage c) = false) as Hasan.
  { intros Hasan. by destruct (rules_asan c Hr Hasan) as (_ & ? & _). }
  destruct (truthy (valgrind c)), (truthy (coverage c)), (truthy (asan c));
    try (by destruct Hvg); try (by specialize (Hasan eq_refl));
    repeat split; try done; by intros [? ?].
Qed.

Lemma C8_tags_and_timeout_witness :
  tags valgrind_scenario_task = {[ Str "test-valgrind" ]}
  ∧ exec_timeout valgrind_scenario_task = Some 7200.
Proof.
  apply (@C8_tags_and_timeout insertion_order valgrind_scenario_task).
  - apply valgrind_scenario_generated.
  - reflexivity.
Defined.

(** (C2), with the name as first stated, fails: the derived name of the
    valgrind scenario is not the one without the sasl token and with
    topology before version.  The version token comes before the topology
    token, and [nosasl] is always there. *)
Lemma C2_name_counterexample :
  IntegrationTask_name valgrind_scenario
  ≠ Return "test-valgrind-server-latest-auth-openssl".
Proof. vm_compute. discriminate. Qed.

(** (C2) The valgrind scenario survives filtering; its derived name is
    [test-valgrind-latest-server-auth-nosasl-openssl], its tags contain
    [test-valgrind], its options override the exec timeout and its
    dependency list is [debug-compile-valgrind]. *)
Theorem C2_valgrind_scenario `{SetIteration} :
  ∃ task,
    generated make_integration_test_tasks task
    ∧ tuple task = valgrind_scenario
    ∧ allow_integration_test_task valgrind_scenario = Return ()
    ∧ IntegrationTask_name (tuple task)
      = Return "test-valgrind-latest-server-auth-nosasl-openssl"
    ∧ Str "test-valgrind" ∈ tags task
    ∧ exec_timeout task = Some 7200
    ∧ depends_on task = ["debug-compile-valgrind"].
Proof.
  exists valgrind_scenario_task.
  split; [apply valgrind_scenario_generated|].
  split; [reflexivity|]. split; [reflexivity|].
  split; [vm_compute; reflexivity|].
  split; [by apply elem_of_singleton|].
  split; reflexivity.
Qed.

(** ** Authentication tasks *)

Lemma auth_derive_tuple task task' :
  auth_derive task = Return task' → tuple task' = tuple task.
Proof. by intros [= <-]. Qed.

Lemma auth_derive_eq (c : AuthTask) :
  auth_derive (Task_init c)
  = Return {| tuple := c;
              tags := {[ Str "authentication-tests";
                         Str (display_value "ssl" (auth_ssl c));
                         Str (display_value "sasl" (auth_sasl c)) ]};
              options := [];
              depends_on :=
                ["debug-compile-" +:+ display_value "sasl" (auth_sasl c)
                 +:+ "-" +:+ display_value "ssl" (auth_ssl c)] |}.
Proof.
  unfold auth_derive; simpl. unfold tags_update, depends_on_append; simpl.
  do 2 f_equal.
  by rewrite ?(left_id_L ∅ (∪)), ?(right_id_L ∅ (∪)), ?(assoc_L (∪)).
Qed.

(** The two rules, as statements about the axis values. *)
Lemma auth_rules_spec (t : AuthTask) :
  Spec.auth_rules t = true ↔
  (auth_ssl t = Str "winssl" ↔ auth_sasl t = Str "sspi")
  ∧ (Spec.unset (auth_sasl t) → auth_ssl t = Str "openssl").
Proof.
  unfold Spec.auth_rules, Spec.unset.
  rewrite andb_true_iff, Bool.eqb_true_iff, <- !eqb_eq.
  destruct (eqb (auth_ssl t) (Str "winssl")),
           (eqb (auth_sasl t) (Str "sspi")),
           (truthy (auth_sasl t)),
           (eqb (auth_ssl t) (Str "openssl")); simpl; intuition congruence.
Qed.

Lemma darwinssl_without_sasl_cell :
  mkAuthTask (Bool false) (Str "darwinssl") ∈ cells auth_task_axes.
Proof. apply (bool_decide_unpack _). vm_compute. reflexivity. Qed.

(** (C7) An authentication-task candidate survives filtering exactly when
    ssl is winssl if and only if sasl is sspi, and ssl is openssl whenever
    sasl is unset.  The candidate without sasl over darwinssl is
    rejected. *)
Theorem C7_auth_rules :
  (∀ t : AuthTask,
     allow_auth_test_task t = Return () ↔
     (auth_ssl t = Str "winssl" ↔ auth_sasl t = Str "sspi")
     ∧ (Spec.unset (auth_sasl t) → auth_ssl t = Str "openssl"))
  ∧ (∀ (S : SetIteration) (c : AuthTask),
       candidate auth_task_axes c →
       ((∃ task, generated make_auth_test_tasks task ∧ tuple task = c) ↔
        (auth_ssl c = Str "winssl" ↔ auth_sasl c = Str "sspi")
        ∧ (Spec.unset (auth_sasl c) → auth_ssl c = Str "openssl")))
  ∧ (∀ S : SetIteration,
       candidate auth_task_axes (mkAuthTask (Bool false) (Str "darwinssl")))
  ∧ allow_auth_test_task (mkAuthTask (Bool false) (Str "darwinssl"))
    = Raise Prohibited
  ∧ (∀ (S : SetIteration) task,
       generated make_auth_test_tasks task →
       tuple task ≠ mkAuthTask (Bool false) (Str "darwinssl")).
Proof.
  split; [|split; [|split; [|split]]].
  - intros t. rewrite <- auth_rules_spec, allow_auth_rules.
    by destruct (Spec.auth_rules t).
  - intros S c Hc%candidate_auth. rewrite <- auth_rules_spec. split.
    + intros (task & (c' & _ & Hr & Hd)%generated_auth & <-).
      by rewrite (auth_derive_tuple _ _ Hd).
    + intros Hr. eexists. split.
      * apply generated_auth. exists c. split; [done|]. split; [done|].
        apply auth_derive_eq.
      * reflexivity.
  - intros S. apply candidate_auth, darwinssl_without_sasl_cell.
  - reflexivity.
  - intros S task (c' & _ & Hr & Hd)%generated_auth Heq.
    rewrite (auth_derive_tuple _ _ Hd) in Heq. simpl in Heq. by subst c'.
Qed.

Lemma C7_auth_rules_witness :
  (∃ task, generated (@make_auth_test_tasks insertion_order) task
           ∧ tuple task = mkAuthTask (Bool false) (Str "openssl")) ↔
  (Str "openssl" = Str "winssl" ↔ Bool false = Str "sspi")
  ∧ (Spec.unset (Bool false) → Str "openssl" = Str "openssl").
Proof.
  apply (proj1 (proj2 C7_auth_rules) insertion_order
           (mkAuthTask (Bool false) (Str "openssl"))).
  apply candidate_auth. apply (bool_decide_unpack _). vm_compute.
  reflexivity.
Defined.

(** ** Rejection *)

Lemma integration_derive_tuple task task' :
  integration_derive task = Return task' → tuple task' = tuple task.
Proof.
  destruct task as [c tg op dp]. intros Hd. derive_cases c Hd; reflexivity.
Qed.

(** The tuples a loop keeps are the tuples its rule chain accepts. *)
Lemma kept_tuples {T} (allow : T → exn unit) (rules : T → bool)
  (derive : Task T → exn (Task T)) (m : list (Task T)) :
  (∀ t, allow t = if rules t then Return () else Raise Prohibited) →
  (∀ task, rules (tuple task) = true → ∃ task', derive task = Return task') →
  (∀ task task', derive task = Return task' → tuple task' = tuple task) →
  tuple <$> omap (keep rules derive) m
  = tuple <$> filter (λ task, allow (tuple task) = Return ()) m.
Proof.
  intros Hallow Htotal Htuple.
  induction m as [|task m IH]; [done|].
  rewrite filter_cons, Hallow. simpl. unfold keep at 1.
  destruct (rules (tuple task)) eqn:Hr.
  - destruct (Htotal task Hr) as [task' Hd]. rewrite Hd. simpl.
    f_equal; [by apply Htuple | exact IH].
  - simpl. exact IH.
Qed.

(** A task the rule chain prohibits leaves the list as it was. *)
Lemma prohibited_skipped {T} (allow : T → exn unit) (task : Task T) :
  allow (tuple task) = Raise Prohibited → allowed allow task = Return false.
Proof. unfold allowed. by intros ->. Qed.

(** (C9) Rejection is skipping.  The rules raise [Prohibited] and nothing
    else; the loop body turns a [Prohibited] task into a round that leaves
    the list unchanged; and both generation functions return, with the
    tuples of exactly the candidates of the matrix their rule chain
    accepts, in the order the matrix was visited. *)
Theorem C9_rejection_is_skipping `{SetIteration} :
  (∀ rule, require rule = if truthy rule then Return () else Raise Prohibited)
  ∧ (∀ rule,
       prohibit rule = if truthy rule then Raise Prohibited else Return ())
  ∧ (∀ rule0 rule1,
       both_or_neither rule0 rule1 =
       if Bool.eqb (truthy rule0) (truthy rule1) then Return ()
       else Raise Prohibited)
  ∧ (∀ acc task,
       allow_integration_test_task (tuple task) = Raise Prohibited →
       integration_step acc task = Return acc)
  ∧ (∀ acc task,
       allow_auth_test_task (tuple task) = Raise Prohibited →
       auth_step acc task = Return acc)
  ∧ (∃ m tasks_list,
       matrix integration_task_axes = Return m
       ∧ make_integration_test_tasks = Return tasks_list
       ∧ tuple <$> tasks_list =
         tuple <$> filter (λ task, allow_integration_test_task (tuple task)
                                   = Return ()) m)
  ∧ (∃ m tasks_list,
       matrix auth_task_axes = Return m
       ∧ make_auth_test_tasks = Return tasks_list
       ∧ tuple <$> tasks_list =
         tuple <$> filter (λ task, allow_auth_test_task (tuple task)
                                   = Return ()) m).
Proof.
  split; [|split; [|split; [|split; [|split; [|split]]]]].
  - intros rule. unfold require. by destruct (truthy rule).
  - intros rule. unfold prohibit. by destruct (truthy rule).
  - intros rule0 rule1. unfold both_or_neither, require, prohibit.
    by destruct (truthy rule0), (truthy rule1).
  - intros acc task Hp. unfold integration_step.
    by rewrite (prohibited_skipped _ _ Hp).
  - intros acc task Hp. unfold auth_step.
    by rewrite (prohibited_skipped _ _ Hp).
  - eexists _, _. split; [apply matrix_integration|].
    split; [apply make_integration_returns|].
    apply kept_tuples.
    + apply allow_integration_rules.
    + apply integration_derive_total.
    + apply integration_derive_tuple.
  - eexists _, _. split; [apply matrix_auth|].
    split; [apply make_auth_returns|].
    apply kept_tuples.
    + apply allow_auth_rules.
    + intros; apply auth_derive_total.
    + apply auth_derive_tuple.
Qed.

(** (C10) The authentication tasks.  Exactly four candidates survive:
    sasl over openssl, sasl over darwinssl, sspi over winssl and no sasl
    over openssl; their names are [authentication-tests-openssl],
    [authentication-tests-darwinssl], [authentication-tests-winssl] and
    [authentication-tests-openssl-nosasl]. *)
Theorem C10_auth_survivors `{SetIteration} :
  ∃ tasks_list,
    make_auth_test_tasks = Return tasks_list
    ∧ (λ task, (tuple task, AuthTask_name (tuple task))) <$> tasks_list
      ≡ₚ [ (mkAuthTask (Str "sasl") (Str "openssl"),
            Return "authentication-tests-openssl");
           (mkAuthTask (Str "sasl") (Str "darwinssl"),
            Return "authentication-tests-darwinssl");
           (mkAuthTask (Str "sspi") (Str "winssl"),
            Return "authentication-tests-winssl");
           (mkAuthTask (Bool false) (Str "openssl"),
            Return "authentication-tests-openssl-nosasl") ].
Proof.
  eexists. split; [apply make_auth_returns|].
  rewrite (set_iter_perm (cells auth_task_axes)).
  match goal with
  | |- ?l ≡ₚ ?r => assert (l = r) as -> by (vm_compute; reflexivity)
  end.
  reflexivity.
Qed.

(** ** Names *)

Lemma plain_scenario_generated `{SetIteration} :
  generated make_integration_test_tasks plain_scenario_task.
Proof.
  apply generated_integration. exists plain_scenario. split.
  - apply (bool_decide_unpack _). vm_compute. reflexivity.
  - split; [reflexivity | vm_compute; reflexivity].
Qed.

(** The accepted cells of the product, in product order. *)
Lemma accepted_names_NoDup :
  NoDup (IntegrationTask_name
           <$> filter (λ c, Spec.integration_rules c = true)
                 (cells integration_task_axes)).
Proof. apply (bool_decide_unpack _). vm_compute. reflexivity. Qed.

Lemma NoDup_fmap_eq {A B} (f : A → B) (l : list A) x y :
  NoDup (f <$> l) → x ∈ l → y ∈ l → f x = f y → x = y.
Proof.
  induction l as [|a l IH]; simpl; [by intros _ ?%elem_of_nil|].
  intros [Hnotin Hnd]%NoDup_cons [->|Hx]%elem_of_cons [->|Hy]%elem_of_cons Hf.
  - done.
  - destruct Hnotin. rewrite Hf. by apply list_elem_of_fmap_2.
  - destruct Hnotin. rewrite <- Hf. by apply list_elem_of_fmap_2.
  - by apply IH.
Qed.

(** The tuples the integration loop keeps of a list of fresh tasks. *)
Lemma kept_cells (l : list IntegrationTask) :
  tuple <$> omap (keep Spec.integration_rules integration_derive)
              (Task_init <$> l)
  = filter (λ c, Spec.integration_rules c = true) l.
Proof.
  induction l as [|c l IH]; [done|].
  rewrite fmap_cons, filter_cons. simpl. unfold keep at 1. simpl.
  destruct (Spec.integration_rules c) eqn:Hr; simpl; [|exact IH].
  destruct (integration_derive_total (Task_init c) Hr) as [task Hd].
  rewrite Hd. simpl. f_equal; [by apply derive_tuple | exact IH].
Qed.

(** (C1) Names are injective over the surviving integration tasks:
    [make_integration_test_tasks] returns a list in which no derived name
    occurs twice, so two distinct generated tasks have distinct names. *)
Theorem C1_names_injective `{SetIteration} :
  ∃ tasks_list,
    make_integration_test_tasks = Return tasks_list
    ∧ NoDup ((λ task, IntegrationTask_name (tuple task)) <$> tasks_list)
    ∧ (∀ task1 task2,
         task1 ∈ tasks_list → task2 ∈ tasks_list → task1 ≠ task2 →
         IntegrationTask_name (tuple task1)
         ≠ IntegrationTask_name (tuple task2)).
Proof.
  eexists. split; [apply make_integration_returns|].
  assert (∀ c1 c2,
            c1 ∈ cells integration_task_axes →
            Spec.integration_rules c1 = true →
            c2 ∈ cells integration_task_axes →
            Spec.integration_rules c2 = true →
            IntegrationTask_name c1 = IntegrationTask_name c2 → c1 = c2)
    as Hinj.
  { intros c1 c2 Hc1 Hr1 Hc2 Hr2.
    apply (NoDup_fmap_eq IntegrationTask_name
             (filter (λ c, Spec.integration_rules c = true)
                (cells integration_task_axes)));
      [apply accepted_names_NoDup | |]; by apply list_elem_of_filter. }
  split.
  - rewrite (list_fmap_compose tuple IntegrationTask_name), kept_cells.
    apply NoDup_fmap_2_strong.
    + intros c1 c2 [Hr1 Hc1]%list_elem_of_filter
        [Hr2 Hc2]%list_elem_of_filter.
      rewrite elem_of_set_iter in Hc1, Hc2. by apply Hinj.
    + apply NoDup_filter. rewrite set_iter_perm. apply NoDup_remove_dups.
  - intros task1 task2 Hin1 Hin2 Hne Hname.
    assert (generated make_integration_test_tasks task1) as Hg1.
    { eexists. split; [apply make_integration_returns | done]. }
    assert (generated make_integration_test_tasks task2) as Hg2.
    { eexists. split; [apply make_integration_returns | done]. }
    apply generated_integration in Hg1 as (c1 & Hc1 & Hr1 & Hd1).
    apply generated_integration in Hg2 as (c2 & Hc2 & Hr2 & Hd2).
    rewrite (derive_tuple _ _ Hd1), (derive_tuple _ _ Hd2) in Hname.
    assert (c1 = c2) as -> by by apply Hinj.
    rewrite Hd1 in Hd2. by injection Hd2.
Qed.

Lemma C1_names_injective_witness :
  IntegrationTask_name (tuple valgrind_scenario_task)
  ≠ IntegrationTask_name (tuple plain_scenario_task).
Proof.
  destruct (@C1_names_injective insertion_order) as (l & Hl & _ & Hinj).
  destruct (@valgrind_scenario_generated insertion_order) as (l1 & Hl1 & Hin1).
  destruct (@plain_scenario_generated insertion_order) as (l2 & Hl2 & Hin2).
  rewrite Hl in Hl1, Hl2. injection Hl1 as <-. injection Hl2 as <-.
  apply Hinj; [done | done |].
  intros Heq. apply (f_equal depends_on) in Heq. discriminate Heq.
Defined.

Lemma display_token_value (axis_name : string) (v : value) :
  v ≠ Str "" → Spec.display_token axis_name v = display_value axis_name v.
Proof.
  unfold Spec.display_token. destruct v as [[|a s]|[]]; simpl; done.
Qed.

Lemma name_part_spec (c : IntegrationTask) (axis_name : string) (v : value) :
  getattr c axis_name = Return v → v ≠ Str "" →
  name_part c axis_name
  = Return (Spec.render (Spec.display_token axis_name v)).
Proof.
  intros Hget Hv. unfold name_part, display. rewrite Hget. simpl.
  rewrite (display_token_value _ _ Hv). unfold Spec.render.
  destruct (String.eqb _ "replica_set"); [done|].
  by destruct (String.eqb _ "sharded_cluster").
Qed.

(** The generator of the name visits the axes in order and keeps the
    tokens of the axes that are set or always named. *)
Lemma name_parts_spec (c : IntegrationTask) (avs : list (string * value)) :
  Forall (λ av, getattr c av.1 = Return av.2 ∧ av.2 ≠ Str "") avs →
  name_parts c avs.*1
  = Return ((λ av, Spec.render (Spec.display_token av.1 av.2))
              <$> List.filter (λ av, truthy av.2 || Spec.always_named av.1)
                    avs).
Proof.
  induction 1 as [|[a v] avs [Hget Hv] _ IH]; [done|].
  rewrite fmap_cons. cbn [name_parts List.filter fst snd] in *.
  rewrite Hget, bind_Return. fold (Spec.always_named a).
  destruct (truthy v || Spec.always_named a); [|exact IH].
  rewrite (name_part_spec _ _ _ Hget Hv), bind_Return, IH. reflexivity.
Qed.

Lemma getattr_axis_values (c : IntegrationTask) :
  Forall (λ av, getattr c av.1 = Return av.2) (Spec.axis_values c).
Proof. repeat constructor. Qed.

Lemma integration_name_spec (c : IntegrationTask) :
  no_empty_value c →
  IntegrationTask_name c = Return (Spec.integration_name c).
Proof.
  intros Hc. unfold IntegrationTask_name.
  change (OD_keys integration_task_axes) with (Spec.axis_values c).*1.
  rewrite name_parts_spec; [done|].
  apply Forall_and. split; [apply getattr_axis_values | exact Hc].
Qed.

Lemma append_empty_r (s : string) : s +:+ "" = s.
Proof.
  induction s as [|a s IH]; [done|].
  change (String a (s +:+ "") = String a s). by rewrite IH.
Qed.

Lemma auth_name_spec (c : AuthTask) :
  auth_ssl c ≠ Str "" → AuthTask_name c = Return (Spec.auth_name c).
Proof.
  intros Hssl. unfold AuthTask_name, Spec.auth_name; simpl.
  rewrite (display_token_value _ _ Hssl).
  destruct (truthy (auth_sasl c)); simpl; [|done].
  by rewrite append_empty_r.
Qed.

Lemma integration_cells_no_empty_value :
  Forall no_empty_value (cells integration_task_axes).
Proof. apply (bool_decide_unpack _). vm_compute. reflexivity. Qed.

Lemma auth_cells_no_empty_value :
  Forall (λ c, auth_ssl c ≠ Str "") (cells auth_task_axes).
Proof. apply (bool_decide_unpack _). vm_compute. reflexivity. Qed.

(** (C4) Name derivation.  The name of every integration task of the
    matrix is the prefix followed by the hyphen-joined tokens, in axis
    order, of the axes that are set or are one of auth, sasl, ssl, where an
    unset axis renders as ["no"] and its name, [replica_set] as
    [replica-set] and [sharded_cluster] as [sharded].  The name of every
    authentication task of the matrix is the prefix and the ssl display
    token, with [-nosasl] appended exactly when sasl is unset. *)
Theorem C4_name_derivation `{SetIteration} :
  (∀ c : IntegrationTask,
     candidate integration_task_axes c →
     IntegrationTask_name c = Return (Spec.integration_name c))
  ∧ (∀ c : AuthTask,
       candidate auth_task_axes c →
       AuthTask_name c = Return (Spec.auth_name c)).
Proof.
  split.
  - intros c Hc%candidate_integration. apply integration_name_spec.
    by apply (proj1 (Forall_forall _ _) integration_cells_no_empty_value).
  - intros c Hc%candidate_auth. apply auth_name_spec.
    by apply (proj1 (Forall_forall _ _) auth_cells_no_empty_value).
Qed.

Lemma C4_name_derivation_witness :
  IntegrationTask_name valgrind_scenario
  = Return "test-valgrind-latest-server-auth-nosasl-openssl"
  ∧ AuthTask_name (mkAuthTask (Bool false) (Str "openssl"))
    = Return "authentication-tests-openssl-nosasl".
Proof.
  split.
  - apply (proj1 (@C4_name_derivation insertion_order) valgrind_scenario).
    apply candidate_integration, valgrind_scenario_cell.
  - apply (proj2 (@C4_name_derivation insertion_order)
             (mkAuthTask (Bool false) (Str "openssl"))).
    apply candidate_auth. apply (bool_decide_unpack _). vm_compute.
    reflexivity.
Defined.

(** ** Dependencies *)

Lemma integration_name_prefix c n :
  IntegrationTask_name c = Return n → ∃ r, n = "test-" +:+ r.
Proof.
  unfold IntegrationTask_name.
  destruct (name_parts c (OD_keys integration_task_axes)) as [e|parts];
    [done|].
  intros [= <-]. by exists (join "-" parts).
Qed.

Lemma auth_name_prefix c n :
  AuthTask_name c = Return n → ∃ r, n = "authentication-tests-" +:+ r.
Proof.
  unfold AuthTask_name; simpl. destruct (truthy (auth_sasl c)); intros [= <-].
  - by eexists.
  - by exists (display_value "ssl" (auth_ssl c) +:+ "-nosasl").
Qed.

(** A compile task is not the name of a generated task. *)
Lemma compile_name_not_generated `{SetIteration} (r : string) :
  (∀ task, generated make_integration_test_tasks task →
           IntegrationTask_name (tuple task) ≠ Return ("debug-" +:+ r))
  ∧ (∀ task, generated make_auth_test_tasks task →
             AuthTask_name (tuple task) ≠ Return ("debug-" +:+ r)).
Proof.
  split; intros task _ Hname.
  - apply integration_name_prefix in Hname as [r' Hr']. discriminate Hr'.
  - apply auth_name_prefix in Hname as [r' Hr']. discriminate Hr'.
Qed.

(** (C5), as first stated, fails: the dependency of the plain scenario is
    neither in the catalog of compile tasks nor the name of a generated
    task. *)
Lemma C5_dependency_counterexample :
  generated (@make_integration_test_tasks insertion_order) plain_scenario_task
  ∧ ("debug-compile-sasl-openssl" ∈ depends_on plain_scenario_task)
  ∧ ("debug-compile-sasl-openssl" ∉ compile_task_names)
  ∧ (∀ task,
       generated (@make_integration_test_tasks insertion_order) task →
       IntegrationTask_name (tuple task)
       ≠ Return "debug-compile-sasl-openssl")
  ∧ (∀ task,
       generated (@make_auth_test_tasks insertion_order) task →
       AuthTask_name (tuple task) ≠ Return "debug-compile-sasl-openssl").
Proof.
  split; [apply plain_scenario_generated|].
  split; [by apply list_elem_of_singleton|].
  split; [apply (bool_decide_unpack _); vm_compute; reflexivity|].
  apply (@compile_name_not_generated insertion_order
           "compile-sasl-openssl").
Qed.

Lemma accepted_dependencies_found :
  Forall (λ c, from_option integration_dependencies_found True
                 (run (integration_derive (Task_init c))))
    (filter (λ c, Spec.integration_rules c = true)
       (cells integration_task_axes)).
Proof. apply (bool_decide_unpack _). vm_compute. reflexivity. Qed.

Lemma accepted_auth_dependencies_found :
  Forall (λ c, from_option auth_dependencies_found True
                 (run (auth_derive (Task_init c))))
    (filter (λ c, Spec.auth_rules c = true) (cells auth_task_axes)).
Proof. apply (bool_decide_unpack _). vm_compute. reflexivity. Qed.

(** (C5) Dependencies.  A generated integration task has no dependency
    exactly when coverage is set.  The dependencies of the valgrind tasks,
    of the asan tasks and of the tasks without ssl are names of the
    catalog of compile tasks.  The one dependency of every other
    integration task, and of every authentication task, is the compile
    task keyed by its sasl and ssl display tokens, which is neither a name
    of the catalog nor the name of a generated integration or
    authentication task. *)
Theorem C5_dependencies_found `{SetIteration} :
  (∀ task : Task IntegrationTask,
     generated make_integration_test_tasks task →
     (depends_on task = [] ↔ Spec.is_set (coverage (tuple task)))
     ∧ (Spec.is_set (valgrind (tuple task))
        ∨ Spec.is_set (asan (tuple task))
        ∨ Spec.unset (ssl (tuple task)) →
        Forall (λ dep, dep ∈ compile_task_names) (depends_on task))
     ∧ (Spec.unset (valgrind (tuple task)) →
        Spec.unset (asan (tuple task)) →
        Spec.unset (coverage (tuple task)) →
        Spec.is_set (ssl (tuple task)) →
        depends_on task
        = ["debug-compile-" +:+ display_value "sasl" (sasl (tuple task))
           +:+ "-" +:+ display_value "ssl" (ssl (tuple task))]
        ∧ ("debug-compile-" +:+ display_value "sasl" (sasl (tuple task))
           +:+ "-" +:+ display_value "ssl" (ssl (tuple task))
           ∉ compile_task_names)
        ∧ (∀ task',
             generated make_integration_test_tasks task' →
             IntegrationTask_name (tuple task')
             ≠ Return ("debug-compile-"
                       +:+ display_value "sasl" (sasl (tuple task))
                       +:+ "-" +:+ display_value "ssl" (ssl (tuple task))))
        ∧ (∀ task',
             generated make_auth_test_tasks task' →
             AuthTask_name (tuple task')
             ≠ Return ("debug-compile-"
                       +:+ display_value "sasl" (sasl (tuple task))
                       +:+ "-" +:+ display_value "ssl" (ssl (tuple task))))))
  ∧ (∀ task : Task AuthTask,
       generated make_auth_test_tasks task →
       depends_on task
       = ["debug-compile-" +:+ display_value "sasl" (auth_sasl (tuple task))
          +:+ "-" +:+ display_value "ssl" (auth_ssl (tuple task))]
       ∧ ("debug-compile-" +:+ display_value "sasl" (auth_sasl (tuple task))
          +:+ "-" +:+ display_value "ssl" (auth_ssl (tuple task))
          ∉ compile_task_names)
       ∧ (∀ task',
            generated make_integration_test_tasks task' →
            IntegrationTask_name (tuple task')
            ≠ Return ("debug-compile-"
                      +:+ display_value "sasl" (auth_sasl (tuple task))
                      +:+ "-"
                      +:+ display_value "ssl" (auth_ssl (tuple task))))
       ∧ (∀ task',
            generated make_auth_test_tasks task' →
            AuthTask_name (tuple task')
            ≠ Return ("debug-compile-"
                      +:+ display_value "sasl" (auth_sasl (tuple task))
                      +:+ "-"
                      +:+ display_value "ssl" (auth_ssl (tuple task))))).
Proof.
  split.
  - intros task (c & Hc & Hr & Hd)%generated_integration.
    pose proof (proj1 (Forall_forall _ _) accepted_dependencies_found c)
      as Hfound.
    specialize (Hfound ltac:(by apply list_elem_of_filter)).
    cbv beta in Hfound. rewrite Hd in Hfound.
    destruct Hfound as (Hnone & Hcatalog & Hkeyed).
    split; [exact Hnone|]. split; [exact Hcatalog|].
    intros Hvalgrind Hasan Hcoverage Hssl.
    destruct (Hkeyed Hvalgrind Hasan Hcoverage Hssl) as [Hdep Hnotin].
    split; [exact Hdep|]. split; [exact Hnotin|].
    exact (compile_name_not_generated
             ("compile-" +:+ display_value "sasl" (sasl (tuple task))
              +:+ "-" +:+ display_value "ssl" (ssl (tuple task)))).
  - intros task (c & Hc & Hr & Hd)%generated_auth.
    pose proof (proj1 (Forall_forall _ _) accepted_auth_dependencies_found c)
      as Hfound.
    specialize (Hfound ltac:(by apply list_elem_of_filter)).
    cbv beta in Hfound. rewrite Hd in Hfound.
    destruct Hfound as [Hdep Hnotin].
    split; [exact Hdep|]. split; [exact Hnotin|].
    exact (compile_name_not_generated
             ("compile-" +:+ display_value "sasl" (auth_sasl (tuple task))
              +:+ "-" +:+ display_value "ssl" (auth_ssl (tuple task)))).
Qed.

Lemma C5_dependencies_found_witness :
  Forall (λ dep, dep ∈ compile_task_names)
    (depends_on valgrind_scenario_task)
  ∧ depends_on plain_scenario_task = ["debug-compile-sasl-openssl"]
  ∧ ("debug-compile-sasl-openssl" ∉ compile_task_names)
  ∧ (∀ task',
       generated (@make_integration_test_tasks insertion_order) task' →
       IntegrationTask_name (tuple task')
       ≠ Return "debug-compile-sasl-openssl")
  ∧ (∀ task',
       generated (@make_auth_test_tasks insertion_order) task' →
       AuthTask_name (tuple task') ≠ Return "debug-compile-sasl-openssl").
Proof.
  split.
  - apply (proj1 (@C5_dependencies_found insertion_order)
             valgrind_scenario_task).
    + apply valgrind_scenario_generated.
    + by left.
  - apply (proj1 (@C5_dependencies_found insertion_order)
             plain_scenario_task); try reflexivity.
    apply plain_scenario_generated.
Defined.

Lemma C9_rejection_is_skipping_witness :
  integration_step []
    (Task_init (mkIntegrationTask (Bool false) (Bool false) (Bool false)
                  (Str "latest") (Str "replica_set") (Bool true)
                  (Str "sspi") (Str "winssl")))
  = Return []
  ∧ auth_step [] (Task_init (mkAuthTask (Bool false) (Str "darwinssl")))
    = Return [].
Proof.
  destruct (@C9_rejection_is_skipping insertion_order)
    as (_ & _ & _ & Hintegration & Hauth & _).
  split; [apply Hintegration | apply Hauth]; reflexivity.
Defined.

(** * Further properties of the script *)

(** ** The matrix as a product *)

Lemma elem_of_product {A} (pools : list (list A)) (cell : list A) :
  cell ∈ product pools ↔ Forall2 (λ x pool, x ∈ pool) cell pools.
Proof.
  revert cell. induction pools as [|pool pools IH]; intros cell; simpl.
  - rewrite list_elem_of_singleton. split.
    + intros ->. constructor.
    + by intros ->%Forall2_nil_inv_r.
  - rewrite list_elem_of_bind. split.
    + intros (x & (cell' & -> & Hcell)%list_elem_of_fmap & Hx).
      constructor; [done | by apply IH].
    + intros (x & cell' & Hx & Hcell & ->)%Forall2_cons_inv_r.
      exists x. split; [|done].
      apply list_elem_of_fmap. exists cell'. split; [done | by apply IH].
Qed.

Lemma new_integration_Return (cell : list value) (c : IntegrationTask) :
  new cell = Return c ↔ cell = (Spec.axis_values c).*2.
Proof.
  destruct c as [v0 v1 v2 v3 v4 v5 v6 v7]. simpl. split.
  - do 9 (destruct cell as [|? cell]; try done).
    by intros [= -> -> -> -> -> -> -> ->].
  - by intros ->.
Qed.

Lemma cells_integration (c : IntegrationTask) :
  c ∈ cells integration_task_axes ↔
  Forall2 (λ (av : string * value) pool, av.2 ∈ pool) (Spec.axis_values c)
    (OD_values integration_task_axes).
Proof.
  assert (Forall2 (λ (av : string * value) pool, av.2 ∈ pool)
            (Spec.axis_values c) (OD_values integration_task_axes)
          ↔ Forall2 (λ v pool, v ∈ pool) (Spec.axis_values c).*2
              (OD_values integration_task_axes)) as ->
    by (symmetry; apply Forall2_fmap_l).
  unfold cells. generalize (OD_values integration_task_axes). intros pools.
  rewrite list_elem_of_omap, <- elem_of_product.
  generalize (product pools). intros l. split.
  - intros (cell & Hcell & Hnew).
    destruct (new cell) as [|c'] eqn:Hc; [done|].
    simpl in Hnew. injection Hnew as ->.
    apply new_integration_Return in Hc. by subst cell.
  - intros Hcell. eexists. split; [done|].
    by rewrite (proj2 (new_integration_Return _ c) eq_refl).
Qed.

Lemma new_auth_Return (cell : list value) (c : AuthTask) :
  new cell = Return c ↔ cell = [auth_sasl c; auth_ssl c].
Proof.
  destruct c as [v0 v1]. simpl. split.
  - do 3 (destruct cell as [|? cell]; try done). by intros [= -> ->].
  - by intros ->.
Qed.

Lemma cells_auth (c : AuthTask) :
  c ∈ cells auth_task_axes ↔
  Forall2 (λ v pool, v ∈ pool) [auth_sasl c; auth_ssl c]
    (OD_values auth_task_axes).
Proof.
  unfold cells. generalize (OD_values auth_task_axes). intros pools.
  rewrite list_elem_of_omap, <- elem_of_product.
  generalize (product pools). intros l. split.
  - intros (cell & Hcell & Hnew).
    destruct (new cell) as [|c'] eqn:Hc; [done|].
    simpl in Hnew. injection Hnew as ->.
    apply new_auth_Return in Hc. by subst cell.
  - intros Hcell. eexists. split; [done|].
    by rewrite (proj2 (new_auth_Return _ c) eq_refl).
Qed.

(** (X1) The matrix is the whole product and nothing else: a tuple is a
    candidate exactly when the value of each of its axes is one of the
    legal values of that axis. *)
Theorem X1_matrix_is_product `{SetIteration} :
  (∀ c : IntegrationTask,
     candidate integration_task_axes c ↔
     ∀ axis_name pool,
       (axis_name, pool) ∈ integration_task_axes →
       ∃ v, getattr c axis_name = Return v ∧ v ∈ pool)
  ∧ (∀ c : AuthTask,
       candidate auth_task_axes c ↔
       ∀ axis_name pool,
         (axis_name, pool) ∈ auth_task_axes →
         ∃ v, getattr c axis_name = Return v ∧ v ∈ pool).
Proof.
  split; intros c.
  - rewrite candidate_integration, cells_integration.
    unfold Spec.axis_values, OD_values, integration_task_axes.
    rewrite !fmap_cons, fmap_nil. split.
    + intros Hall axis_name pool Hin. invert_Forall2 Hall.
      axis_of_table Hall Hin.
    + intros Hall. repeat (apply Forall2_cons; split); [axis_in_pool Hall..|].
      constructor.
  - rewrite candidate_auth, cells_auth.
    unfold OD_values, auth_task_axes.
    rewrite !fmap_cons, fmap_nil. split.
    + intros Hall axis_name pool Hin. invert_Forall2 Hall.
      axis_of_table Hall Hin.
    + intros Hall. repeat (apply Forall2_cons; split).
      * destruct (Hall "sasl" [Str "sasl"; Str "sspi"; Bool false])
          as (v & Hget & Hv); [by left|].
        simpl in Hget. by injection Hget as <-.
      * destruct (Hall "ssl" [Str "openssl"; Str "darwinssl"; Str "winssl"])
          as (v & Hget & Hv); [by right; left|].
        simpl in Hget. by injection Hget as <-.
      * constructor.
Qed.

(** ** Edge cases of the matrix *)

Lemma product_empty_pool {A} (pools : list (list A)) :
  [] ∈ pools → product pools = [].
Proof.
  induction pools as [|pool pools IH]; [by intros ?%elem_of_nil|].
  intros [<-|Hin]%elem_of_cons; [done|].
  simpl. rewrite (IH Hin). by induction pool.
Qed.

Lemma product_nonempty {A} (pools : list (list A)) :
  Forall (λ pool, pool ≠ []) pools →
  ∃ cell rest, product pools = cell :: rest ∧ length cell = length pools.
Proof.
  induction 1 as [|pool pools Hpool _ (cell & rest & IH & Hlen)].
  - by exists [], [].
  - destruct pool as [|x pool]; [done|].
    simpl. rewrite IH. simpl. eexists _, _. split; [done|].
    simpl. by rewrite Hlen.
Qed.

Lemma mapM_first_raises {A B} (f : A → exn B) (x : A) (l : list A) e :
  f x = Raise e → mapM f (x :: l) = Raise e.
Proof. simpl. by intros ->. Qed.

Lemma new_integration_arity (cell : list value) :
  length cell ≠ 8%nat → new (T := IntegrationTask) cell = Raise TypeError.
Proof. do 9 (destruct cell as [|? cell]; try done). Qed.

Lemma new_auth_arity (cell : list value) :
  length cell ≠ 2%nat → new (T := AuthTask) cell = Raise TypeError.
Proof. do 3 (destruct cell as [|? cell]; try done). Qed.

(** (X2) An axis without legal values empties the matrix: [matrix]
    returns no candidate at all, and raises nothing, whatever the other
    axes are. *)
Theorem X2_empty_axis_empties_matrix `{SetIteration} {T} `{EqDecision T}
  `{TaskClass T} (axes : OD (list value)) :
  [] ∈ OD_values axes → matrix (T := T) axes = Return [].
Proof.
  intros Hempty. unfold matrix. rewrite (product_empty_pool _ Hempty).
  simpl. assert (set_iter (A := T) [] = []) as ->; [|done].
  apply Permutation_nil_r. by rewrite set_iter_perm.
Qed.

Lemma X2_empty_axis_empties_matrix_witness :
  @matrix insertion_order IntegrationTask _ _
    [("valgrind", [Str "valgrind"; Bool false]); ("asan", [])]
  = Return [].
Proof.
  apply (@X2_empty_axis_empties_matrix insertion_order).
  simpl. right. left.
Defined.

(** (X3) A matrix whose axes all have legal values but whose number does
    not fit the task class raises [TypeError]: eight axes for an
    integration task, two for an authentication task. *)
Theorem X3_wrong_axis_count_raises `{SetIteration}
  (axes : OD (list value)) :
  Forall (λ pool, pool ≠ []) (OD_values axes) →
  (length axes ≠ 8%nat →
   matrix (T := IntegrationTask) axes = Raise TypeError)
  ∧ (length axes ≠ 2%nat →
     matrix (T := AuthTask) axes = Raise TypeError).
Proof.
  intros (cell & rest & Hproduct & Hlen)%product_nonempty.
  unfold OD_values in Hlen. rewrite length_fmap in Hlen.
  unfold matrix. rewrite Hproduct. split; intros Hn.
  - by rewrite (mapM_first_raises _ _ _ TypeError)
      by (apply new_integration_arity; congruence).
  - by rewrite (mapM_first_raises _ _ _ TypeError)
      by (apply new_auth_arity; congruence).
Qed.

Lemma X3_wrong_axis_count_raises_witness :
  @matrix insertion_order IntegrationTask _ _ auth_task_axes
  = Raise TypeError
  ∧ @matrix insertion_order AuthTask _ _ integration_task_axes
    = Raise TypeError.
Proof.
  split.
  - apply (@X3_wrong_axis_count_raises insertion_order auth_task_axes);
      [repeat constructor; done | done].
  - apply (@X3_wrong_axis_count_raises insertion_order
             integration_task_axes); [repeat constructor; done | done].
Defined.

(** ** Independence of the iteration order *)

Lemma matrix_tasks_NoDup `{SetIteration} {T} `{EqDecision T} (l : list T) :
  NoDup (Task_init <$> set_iter l).
Proof.
  apply NoDup_fmap_2_strong.
  - by intros c1 c2 _ _ [= ->].
  - rewrite set_iter_perm. apply NoDup_remove_dups.
Qed.

(** What a loop keeps of tasks that differ by their tuples differs by its
    tuples. *)
Lemma kept_NoDup {T} (rules : T → bool)
  (derive : Task T → exn (Task T)) (m : list (Task T)) :
  (∀ task task', derive task = Return task' → tuple task' = tuple task) →
  NoDup (tuple <$> m) → NoDup (omap (keep rules derive) m).
Proof.
  intros Htuple. induction m as [|task m IH]; simpl; [constructor|].
  intros [Hnotin Hnd]%NoDup_cons.
  destruct (keep rules derive task) as [task'|] eqn:Hkeep; [|by apply IH].
  apply NoDup_cons. split; [|by apply IH].
  intros (task0 & Hin & Hkeep0)%list_elem_of_omap.
  apply keep_Some in Hkeep as [_ Hd], Hkeep0 as [_ Hd0].
  apply Hnotin, list_elem_of_fmap. exists task0. split; [|done].
  by rewrite <- (Htuple _ _ Hd), <- (Htuple _ _ Hd0).
Qed.

Lemma generation_order_irrelevant (S1 S2 : SetIteration) {T}
  `{EqDecision T} (rules : T → bool) (derive : Task T → exn (Task T))
  (l : list T) :
  (∀ task task', derive task = Return task' → tuple task' = tuple task) →
  omap (keep rules derive) (Task_init <$> @set_iter S1 _ _ l)
  ≡ₚ omap (keep rules derive) (Task_init <$> @set_iter S2 _ _ l)
  ∧ NoDup (omap (keep rules derive) (Task_init <$> @set_iter S1 _ _ l)).
Proof.
  intros Htuple. split.
  - by rewrite (@set_iter_perm S1), (@set_iter_perm S2).
  - apply kept_NoDup; [exact Htuple|].
    apply NoDup_fmap_2_strong; [|apply matrix_tasks_NoDup].
    intros t1 t2 (c1 & -> & _)%list_elem_of_fmap
      (c2 & -> & _)%list_elem_of_fmap. simpl. by intros ->.
Qed.

(** (X4) The generated tasks do not depend on the order in which the set
    of the matrix is visited: for two iteration orders both generation
    functions return lists that are permutations of each other, and no
    task occurs twice. *)
Theorem X4_iteration_order_irrelevant (S1 S2 : SetIteration) :
  (∃ l1 l2,
     @make_integration_test_tasks S1 = Return l1
     ∧ @make_integration_test_tasks S2 = Return l2
     ∧ l1 ≡ₚ l2 ∧ NoDup l1)
  ∧ (∃ l1 l2,
       @make_auth_test_tasks S1 = Return l1
       ∧ @make_auth_test_tasks S2 = Return l2
       ∧ l1 ≡ₚ l2 ∧ NoDup l1).
Proof.
  split.
  - eexists _, _. split; [apply make_integration_returns|].
    split; [apply make_integration_returns|].
    apply generation_order_irrelevant, integration_derive_tuple.
  - eexists _, _. split; [apply make_auth_returns|].
    split; [apply make_auth_returns|].
    apply generation_order_irrelevant, auth_derive_tuple.
Qed.

(** ** The single sspi task *)

Lemma accepted_sspi :
  Forall (λ c, sasl c = Str "sspi" →
               c = {| valgrind := Bool false; asan := Bool false;
                      coverage := Bool false; version := Str "latest";
                      topology := Str "server"; auth := Bool true;
                      sasl := Str "sspi"; ssl := Str "winssl" |})
    (filter (λ c, Spec.integration_rules c = true)
       (cells integration_task_axes)).
Proof. apply (bool_decide_unpack _). vm_compute. reflexivity. Qed.

(** (X5) Only one task runs with sspi: a generated integration task has
    sasl ['sspi'] only if it is the task without valgrind, asan and
    coverage on the latest server with auth over winssl, and that task
    is generated. *)
Theorem X5_one_sspi_task `{SetIteration} :
  (∃ task,
     generated make_integration_test_tasks task
     ∧ sasl (tuple task) = Str "sspi")
  ∧ (∀ task,
       generated make_integration_test_tasks task →
       sasl (tuple task) = Str "sspi" →
       tuple task = {| valgrind := Bool false; asan := Bool false;
                       coverage := Bool false; version := Str "latest";
                       topology := Str "server"; auth := Bool true;
                       sasl := Str "sspi"; ssl := Str "winssl" |}).
Proof.
  split.
  - destruct (integration_derive_total
                (Task_init {| valgrind := Bool false; asan := Bool false;
                              coverage := Bool false;
                              version := Str "latest";
                              topology := Str "server"; auth := Bool true;
                              sasl := Str "sspi"; ssl := Str "winssl" |}))
      as [task Hd]; [reflexivity|].
    exists task. split.
    + apply generated_integration. eexists. split; [|split; [|exact Hd]].
      * apply (bool_decide_unpack _). vm_compute. reflexivity.
      * reflexivity.
    + by rewrite (derive_tuple _ _ Hd).
  - intros task (c & Hc & Hr & Hd)%generated_integration.
    rewrite (derive_tuple _ _ Hd).
    pose proof (proj1 (Forall_forall _ _) accepted_sspi c) as Honly.
    apply Honly. by apply list_elem_of_filter.
Qed.

Lemma X5_one_sspi_task_witness :
  ∃ task,
    generated (@make_integration_test_tasks insertion_order) task
    ∧ tuple task = {| valgrind := Bool false; asan := Bool false;
                      coverage := Bool false; version := Str "latest";
                      topology := Str "server"; auth := Bool true;
                      sasl := Str "sspi"; ssl := Str "winssl" |}.
Proof.
  destruct (@X5_one_sspi_task insertion_order) as [(task & Hg & Hs) Honly].
  exists task. split; [exact Hg | by apply Honly].
Defined.

(** ** The rule chains as conjunctions *)

Lemma ssl_follows_auth_spec (t : IntegrationTask) :
  Spec.ssl_follows_auth t = true ↔
  (Spec.is_set (auth t) → ssl t = Str "openssl")
  ∧ (Spec.unset (auth t) → Spec.unset (ssl t)).
Proof.
  unfold Spec.ssl_follows_auth, Spec.is_set, Spec.unset.
  rewrite <- eqb_eq.
  destruct (truthy (auth t)), (eqb (ssl t) (Str "openssl")),
    (truthy (ssl t)); simpl; intuition congruence.
Qed.

(** (X6) The rule chain of integration tasks is a conjunction: whatever
    the values of the tuple, [allow_integration_test_task] returns when
    all six rules hold and raises [Prohibited], and nothing else, when
    one of them fails. *)
Theorem X6_integration_rules (t : IntegrationTask) :
  (allow_integration_test_task t = Return ()
   ∨ allow_integration_test_task t = Raise Prohibited)
  ∧ (allow_integration_test_task t = Return () ↔
     (Spec.is_set (valgrind t) →
        Spec.unset (asan t) ∧ Spec.unset (sasl t)
        ∧ (ssl t = Str "openssl" ∨ ssl t = Bool false)
        ∧ Spec.unset (coverage t)
        ∧ (Spec.is_set (auth t) → ssl t = Str "openssl")
        ∧ (Spec.unset (auth t) → Spec.unset (ssl t)))
     ∧ (Spec.is_set (auth t) → Spec.is_set (ssl t))
     ∧ (sasl t = Str "sspi" →
          topology t = Str "server" ∧ version t = Str "latest"
          ∧ ssl t = Str "winssl" ∧ Spec.is_set (auth t))
     ∧ (Spec.unset (ssl t) → Spec.unset (sasl t))
     ∧ (Spec.is_set (coverage t) →
          Spec.unset (sasl t)
          ∧ (Spec.is_set (auth t) → ssl t = Str "openssl")
          ∧ (Spec.unset (auth t) → Spec.unset (ssl t)))
     ∧ (Spec.is_set (asan t) →
          Spec.unset (sasl t) ∧ Spec.unset (coverage t)
          ∧ (Spec.is_set (auth t) → ssl t = Str "openssl")
          ∧ (Spec.unset (auth t) → Spec.unset (ssl t)))).
Proof.
  rewrite allow_integration_rules. split.
  { destruct (Spec.integration_rules t); [by left | by right]. }
  assert ((if Spec.integration_rules t then Return () else Raise Prohibited)
          = Return () ↔ Spec.integration_rules t = true) as ->
    by (destruct (Spec.integration_rules t); split; done).
  unfold Spec.integration_rules, member; simpl.
  rewrite !andb_true_iff, !Bool.implb_true_iff, !andb_true_iff,
    !orb_true_iff, !negb_true_iff, !ssl_follows_auth_spec, !eqb_eq.
  unfold Spec.is_set, Spec.unset.
  assert (false = true ↔ False) as -> by (split; [discriminate | done]).
  tauto.
Qed.

(** ** Tags of the authentication tasks *)

(** (X7) Every generated authentication task carries exactly the tags
    [authentication-tests] and the display tokens of ssl and sasl, no
    option (so no exec timeout), and one dependency. *)
Theorem X7_auth_tags `{SetIteration} (task : Task AuthTask) :
  generated make_auth_test_tasks task →
  tags task = {[ Str "authentication-tests";
                 Str (display_value "ssl" (auth_ssl (tuple task)));
                 Str (display_value "sasl" (auth_sasl (tuple task))) ]}
  ∧ options task = []
  ∧ exec_timeout task = None
  ∧ length (depends_on task) = 1%nat.
Proof.
  intros (c & _ & _ & Hd)%generated_auth.
  rewrite auth_derive_eq in Hd. by injection Hd as <-.
Qed.

Lemma X7_auth_tags_witness :
  ∃ task,
    tuple task = mkAuthTask (Str "sspi") (Str "winssl")
    ∧ tags task = {[ Str "authentication-tests"; Str "winssl"; Str "sspi" ]}
    ∧ options task = [].
Proof.
  eexists {| tuple := mkAuthTask (Str "sspi") (Str "winssl") |}.
  split; [reflexivity|].
  assert (generated (@make_auth_test_tasks insertion_order)
            {| tuple := mkAuthTask (Str "sspi") (Str "winssl");
               tags := {[ Str "authentication-tests"; Str "winssl";
                          Str "sspi" ]};
               options := [];
               depends_on := ["debug-compile-sspi-winssl"] |}) as Hg.
  { apply generated_auth. exists (mkAuthTask (Str "sspi") (Str "winssl")).
    split; [apply (bool_decide_unpack _); vm_compute; reflexivity|].
    split; [reflexivity | apply auth_derive_eq]. }
  destruct (@X7_auth_tags insertion_order _ Hg) as (Htags & Hoptions & _).
  split; [exact Htags | exact Hoptions].
Defined.

(** ** Names across the families *)

Lemma integration_names_NoDup `{SetIteration} :
  NoDup ((λ task, IntegrationTask_name (tuple task))
           <$> omap (keep Spec.integration_rules integration_derive)
                 (Task_init <$> set_iter (cells integration_task_axes))).
Proof.
  rewrite (list_fmap_compose tuple IntegrationTask_name), kept_cells.
  apply NoDup_fmap_2_strong.
  - intros c1 c2 [Hr1 Hc1]%list_elem_of_filter [Hr2 Hc2]%list_elem_of_filter.
    rewrite elem_of_set_iter in Hc1, Hc2.
    apply (NoDup_fmap_eq IntegrationTask_name
             (filter (λ c, Spec.integration_rules c = true)
                (cells integration_task_axes)));
      [apply accepted_names_NoDup | |]; by apply list_elem_of_filter.
  - apply NoDup_filter. rewrite set_iter_perm. apply NoDup_remove_dups.
Qed.

Lemma auth_names_NoDup `{SetIteration} :
  NoDup ((λ task, AuthTask_name (tuple task))
           <$> omap (keep Spec.auth_rules auth_derive)
                 (Task_init <$> set_iter (cells auth_task_axes))).
Proof.
  rewrite (set_iter_perm (cells auth_task_axes)).
  apply (bool_decide_unpack _). vm_compute. reflexivity.
Qed.

Lemma compile_task_names_prefix :
  Forall (λ n, ∃ r, n = "debug-" +:+ r) compile_task_names.
Proof. repeat constructor; by eexists. Qed.

Lemma compile_task_names_NoDup : NoDup compile_task_names.
Proof. apply (bool_decide_unpack _). vm_compute. reflexivity. Qed.

(** (X8) Task names are unique across the three families: the names of
    the catalog of compile tasks, the derived names of the generated
    integration tasks and those of the generated authentication tasks
    form a list without repetition. *)
Theorem X8_names_unique `{SetIteration} :
  ∃ integration_tasks auth_tasks,
    make_integration_test_tasks = Return integration_tasks
    ∧ make_auth_test_tasks = Return auth_tasks
    ∧ NoDup ((Return <$> compile_task_names)
             ++ ((λ task, IntegrationTask_name (tuple task))
                   <$> integration_tasks)
             ++ ((λ task, AuthTask_name (tuple task)) <$> auth_tasks)).
Proof.
  eexists _, _. split; [apply make_integration_returns|].
  split; [apply make_auth_returns|].
  apply NoDup_app. split; [|split].
  - apply NoDup_fmap_2; [by intros ?? [= ->] | apply compile_task_names_NoDup].
  - intros name (n & -> & Hn)%list_elem_of_fmap.
    destruct (proj1 (Forall_forall _ _) compile_task_names_prefix n Hn)
      as [r ->].
    destruct (compile_name_not_generated r) as [Hintegration Hauth].
    intros [Hin|Hin]%elem_of_app;
      apply list_elem_of_fmap in Hin as (task & Hname & Hin).
    + apply (Hintegration task); [|done].
      eexists. split; [apply make_integration_returns | done].
    + apply (Hauth task); [|done].
      eexists. split; [apply make_auth_returns | done].
  - apply NoDup_app. split; [apply integration_names_NoDup|].
    split; [|apply auth_names_NoDup].
    intros name (task & -> & _)%list_elem_of_fmap
      (task' & Hname & _)%list_elem_of_fmap.
    destruct (IntegrationTask_name (tuple task)) as [e|n] eqn:Hn.
    + symmetry in Hname. destruct (AuthTask_name (tuple task')) eqn:Hn';
        [|done].
      unfold AuthTask_name in Hn'. simpl in Hn'.
      by destruct (truthy (auth_sasl (tuple task'))).
    + apply integration_name_prefix in Hn as [r ->].
      symmetry in Hname. apply auth_name_prefix in Hname as [r' Hr'].
      discriminate Hr'.
Qed.

(** ** Tags *)

(** (X9) [has_tags] holds exactly when one of its arguments is a tag of
    the task; so it fails without arguments, holds for any argument just
    added, and tags once had are kept by [add_tags]. *)
Theorem X9_has_tags {T} (self : Task T) (args more : list value) :
  (has_tags args self = true ↔ ∃ tag, tag ∈ args ∧ tag ∈ tags self)
  ∧ has_tags [] self = false
  ∧ (args ≠ [] → has_tags args (add_tags args self) = true)
  ∧ (has_tags args self = true →
     has_tags args (add_tags more self) = true).
Proof.
  assert (∀ (task : Task T) l,
            has_tags l task = true ↔ ∃ tag, tag ∈ l ∧ tag ∈ tags task)
    as Hspec.
  { intros task l. unfold has_tags. rewrite bool_decide_eq_true. split.
    - intros [tag [Htag Hin%elem_of_list_to_set]%elem_of_intersection]
        %set_choose_L. by exists tag.
    - intros (tag & Hin & Htag) Hempty.
      apply (not_elem_of_empty (C := gset value) tag). rewrite <- Hempty.
      apply elem_of_intersection. split; [done|].
      by apply elem_of_list_to_set. }
  split; [apply Hspec|]. split; [|split].
  - apply not_true_iff_false. rewrite Hspec.
    by intros (tag & ?%elem_of_nil & _).
  - intros Hargs. apply Hspec. destruct args as [|tag args]; [done|].
    exists tag. split; [by left|].
    change (tag ∈ tags self ∪ list_to_set (tag :: args)).
    apply elem_of_union_r, elem_of_list_to_set. by left.
  - rewrite !Hspec. intros (tag & Hin & Htag). exists tag.
    split; [done|].
    change (tag ∈ tags self ∪ list_to_set more).
    by apply elem_of_union_l.
Qed.

Lemma X9_has_tags_witness :
  has_tags [Str "special"; Str "valgrind"]
    (add_tags [Str "special"; Str "valgrind"]
       (Task_init (mkCompileTask "debug-compile-valgrind"))) = true.
Proof.
  apply (proj1 (proj2 (proj2
           (X9_has_tags (Task_init (mkCompileTask "debug-compile-valgrind"))
              [Str "special"; Str "valgrind"] [])))).
  done.
Defined.

(** ** The environment of a compile task *)

Lemma compile_environment_config (config compression : string)
  (kwargs opt : gmap string string) :
  compile_environment config compression kwargs = Return opt →
  config = "debug" ∨ config = "release".
Proof.
  unfold compile_environment.
  destruct (String.eqb_spec config "debug") as [->|_]; [by left|].
  destruct (String.eqb_spec config "release") as [->|_]; [by right|done].
Qed.





(** (X12) The environment keeps what it was given: every keyword
    argument other than [DEBUG], [RELEASE], [SNAPPY] and [ZLIB] is in the
    environment with the value it was passed with, and nothing else is
    added. *)
Theorem X12_compile_environment_keeps (config compression : string)
  (kwargs opt : gmap string string) (key : string) :
  compile_environment config compression kwargs = Return opt →
  key ∉ ["DEBUG"; "RELEASE"; "SNAPPY"; "ZLIB"] →
  opt !! key = kwargs !! key.
Proof.
  unfold compile_environment. intros Hopt Hkey.
  rewrite !not_elem_of_cons in Hkey.
  destruct Hkey as (? & ? & ? & ? & _).
  destruct (String.eqb config "debug"); simpl in Hopt.
  - destruct (negb (String.eqb compression "default"));
      injection Hopt as <-; by simplify_map_eq.
  - destruct (String.eqb config "release"); [|done]. simpl in Hopt.
    destruct (negb (String.eqb compression "default"));
      injection Hopt as <-; by simplify_map_eq.
Qed.

Lemma X12_compile_environment_keeps_witness :
  ∃ opt : gmap string string,
    compile_environment "debug" "default" {[ "CFLAGS" := "-flto" ]}
    = Return opt
    ∧ opt !! "CFLAGS" = Some "-flto".
Proof.
  eexists. split; [reflexivity|].
  rewrite (X12_compile_environment_keeps "debug" "default"
             {[ "CFLAGS" := "-flto" ]} _ "CFLAGS" eq_refl).
  - apply lookup_singleton_eq.
  - rewrite !not_elem_of_cons. by repeat split; try apply not_elem_of_nil.
Defined.

(** ** Serialisation *)

Lemma OD_get_set_eq {V} (d : OD V) (k : string) (v : V) :
  OD_get (OD_set d k v) k = Some v.
Proof.
  induction d as [|[k' v'] d IH]; simpl.
  - by rewrite String.eqb_refl.
  - destruct (String.eqb k' k) eqn:Hk; simpl; by rewrite Hk.
Qed.

Lemma OD_get_set_ne {V} (d : OD V) (k k' : string) (v : V) :
  k ≠ k' → OD_get (OD_set d k v) k' = OD_get d k'.
Proof.
  intros Hne. induction d as [|[k0 v0] d IH]; simpl.
  - by rewrite (proj2 (String.eqb_neq k k') Hne).
  - destruct (String.eqb k0 k) eqn:Hk; simpl; [|by rewrite IH].
    apply String.eqb_eq in Hk as ->.
    by rewrite (proj2 (String.eqb_neq k k') Hne).
Qed.

Lemma OD_get_update_None {V} (d : OD V) (pairs : list (string * V))
  (k : string) :
  OD_get d k = None → k ∉ pairs.*1 → OD_get (OD_update d pairs) k = None.
Proof.
  revert d. induction pairs as [|[k' v'] pairs IH]; intros d Hd Hk; [done|].
  rewrite fmap_cons, not_elem_of_cons in Hk. destruct Hk as [Hne Hk].
  unfold OD_update. simpl. apply IH; [|done].
  by rewrite OD_get_set_ne.
Qed.

Lemma OD_get_close (task : task_dict) (k : string) :
  OD_get (close task) k
  = (λ s, match s with
          | Holds o => o
          | Commands => List_ (commands task)
          end) <$> OD_get (entries task) k.
Proof.
  unfold close. induction (entries task) as [|[k' s] d IH]; [done|].
  simpl. by destruct (String.eqb k' k).
Qed.

Lemma last_cons_default {A} (l : list A) (x y : A) :
  List.last (y :: l) x = List.last l y.
Proof.
  revert x y. induction l as [|z l IH]; intros x y; [done|].
  change (List.last (z :: l) x = List.last (z :: l) y).
  by rewrite !IH.
Qed.

(** A dictionary made of pairs with one and the same key keeps the last
    value. *)
Lemma OD_new_one_key {A V} (k : string) (f : A → V) (x : A) (l : list A) :
  OD_new ((λ a, (k, f a)) <$> x :: l) = [(k, f (List.last l x))].
Proof.
  unfold OD_new, OD_update. rewrite fmap_cons. cbn [foldl OD_set fst snd].
  revert x. induction l as [|y l IH]; intros x; [done|].
  rewrite last_cons_default, fmap_cons. cbn [foldl OD_set fst snd].
  rewrite String.eqb_refl. apply IH.
Qed.

(** (X13) What [Task.to_dict] says about dependencies.  The dictionary
    always holds the list of commands.  Without a dependency there is no
    command and, unless an option has that name, no [depends_on] entry.
    With dependencies the [depends_on] entry names the last one only,
    while the one command, [fetch build], fetches the first. *)
Theorem X13_to_dict_dependencies {T} (name : T → exn string)
  (self : Task T) (n : string) :
  name (tuple self) = Return n →
  ∃ d,
    Task_to_dict name self = Return d
    ∧ OD_get (close d) "commands" = Some (List_ (commands d))
    ∧ match depends_on self with
      | [] =>
          commands d = []
          ∧ ("depends_on" ∉ (options self).*1 →
             OD_get (close d) "depends_on" = None)
      | first :: rest =>
          commands d
          = [Dict [("func", Atom (Str "fetch build"));
                   ("vars", Dict [("BUILD_NAME", Atom (Str first))])]]
          ∧ OD_get (close d) "depends_on"
            = Some (Dict [("name", Atom (Str (List.last rest first)))])
      end.
Proof.
  intros Hname. unfold Task_to_dict. rewrite Hname, bind_Return.
  eexists. split; [reflexivity|]. rewrite !OD_get_close.
  cbn [entries commands]. rewrite OD_get_set_eq. split; [done|].
  rewrite OD_get_set_ne by done.
  destruct (depends_on self) as [|first rest] eqn:Hdeps.
  - split; [done|]. intros Hkey.
    rewrite bool_decide_eq_false_2 by (by intros []).
    rewrite OD_get_update_None; [done | done |].
    by rewrite <- list_fmap_compose.
  - split; [done|].
    rewrite bool_decide_eq_true_2 by done.
    by rewrite OD_get_set_eq, OD_new_one_key.
Qed.

Lemma X13_to_dict_dependencies_witness :
  ∃ d,
    Task_to_dict (λ c, Return (compile_task_name c))
      (depends_on_append "second"
         (depends_on_append "first" (Task_init (mkCompileTask "task"))))
    = Return d
    ∧ commands d
      = [Dict [("func", Atom (Str "fetch build"));
               ("vars", Dict [("BUILD_NAME", Atom (Str "first"))])]]
    ∧ OD_get (close d) "depends_on"
      = Some (Dict [("name", Atom (Str "second"))]).
Proof.
  destruct (X13_to_dict_dependencies (λ c, Return (compile_task_name c))
              (depends_on_append "second"
                 (depends_on_append "first"
                    (Task_init (mkCompileTask "task")))) "task" eq_refl)
    as (d & Hd & _ & Hcommands & Hentry).
  exists d. split; [exact Hd|]. split; [exact Hcommands | exact Hentry].
Defined.

Lemma run_Some {A} (m : exn A) (a : A) : run m = Some a ↔ m = Return a.
Proof. destruct m; simpl; split; congruence. Qed.

Lemma accepted_dicts :
  Forall (λ c,
            from_option
              (λ task,
                 from_option
                   (λ d, integration_dict_shape task d
                         ∧ integration_dict_vars task d)
                   False (run (IntegrationTask_to_dict task)))
              True (run (integration_derive (Task_init c))))
    (filter (λ c, Spec.integration_rules c = true)
       (cells integration_task_axes)).
Proof. apply (bool_decide_unpack _). vm_compute. reflexivity. Qed.

Lemma accepted_auth_dicts :
  Forall (λ c,
            from_option
              (λ task,
                 from_option (auth_dict_shape task) False
                   (run (AuthTask_to_dict task)))
              True (run (auth_derive (Task_init c))))
    (filter (λ c, Spec.auth_rules c = true) (cells auth_task_axes)).
Proof. apply (bool_decide_unpack _). vm_compute. reflexivity. Qed.

Lemma generated_dict `{SetIteration} (task : Task IntegrationTask) :
  generated make_integration_test_tasks task →
  ∃ d, IntegrationTask_to_dict task = Return d
       ∧ integration_dict_shape task d ∧ integration_dict_vars task d.
Proof.
  intros (c & Hc & Hr & Hd)%generated_integration.
  pose proof (proj1 (Forall_forall _ _) accepted_dicts c) as Hdict.
  specialize (Hdict ltac:(by apply list_elem_of_filter)).
  cbv beta in Hdict. rewrite Hd in Hdict. simpl in Hdict.
  destruct (run (IntegrationTask_to_dict task)) as [d|] eqn:Hrun; [|done].
  exists d. split; [by apply run_Some | exact Hdict].
Qed.

(** (X14) The serialised form of a generated integration task.  Its keys
    are name and tags, then the exec timeout for valgrind, coverage and
    asan, then [depends_on] unless coverage is set, then the commands.
    Its commands call, in order: [fetch build], or for coverage the
    coverage build keyed by the sasl and ssl display tokens; then
    [bootstrap mongo-orchestration] and [run tests]; and for coverage,
    at the end, [update codecov.io]. *)
Theorem X14_integration_dict_shape `{SetIteration}
  (task : Task IntegrationTask) :
  generated make_integration_test_tasks task →
  ∃ d,
    IntegrationTask_to_dict task = Return d
    ∧ OD_keys (close d)
      = ["name"; "tags"]
        ++ (if truthy (valgrind (tuple task))
               || truthy (coverage (tuple task))
               || truthy (asan (tuple task))
            then ["exec_timeout_secs"] else [])
        ++ (if truthy (coverage (tuple task)) then [] else ["depends_on"])
        ++ ["commands"]
    ∧ command_funcs d
      = (if truthy (coverage (tuple task)) then
           [Some (Str ("debug-compile-coverage-notest-"
                       +:+ display_value "sasl" (sasl (tuple task))
                       +:+ "-" +:+ display_value "ssl" (ssl (tuple task))))]
         else [Some (Str "fetch build")])
        ++ [Some (Str "bootstrap mongo-orchestration");
            Some (Str "run tests")]
        ++ (if truthy (coverage (tuple task)) then
              [Some (Str "update codecov.io")]
            else []).
Proof.
  intros (d & Hd & Hshape & _)%generated_dict.
  exists d. split; [exact Hd | exact Hshape].
Qed.

Lemma X14_integration_dict_shape_witness :
  ∃ d,
    IntegrationTask_to_dict valgrind_scenario_task = Return d
    ∧ OD_keys (close d)
      = ["name"; "tags"; "exec_timeout_secs"; "depends_on"; "commands"]
    ∧ command_funcs d
      = [Some (Str "fetch build");
         Some (Str "bootstrap mongo-orchestration");
         Some (Str "run tests")].
Proof.
  apply (@X14_integration_dict_shape insertion_order valgrind_scenario_task).
  apply valgrind_scenario_generated.
Defined.

(** (X15) The variables of the commands of a generated integration task.
    [fetch build] fetches the dependency the [depends_on] entry names
    (and there is neither for coverage).  Both [bootstrap
    mongo-orchestration] and [run tests] are told the same [AUTH] and
    [SSL], the display tokens of auth and ssl; the bootstrap is told the
    version and the topology as they are in the tuple; [run tests] is
    told [on] for [VALGRIND] and [ASAN] exactly when the axis is set. *)
Theorem X15_integration_dict_vars `{SetIteration}
  (task : Task IntegrationTask) :
  generated make_integration_test_tasks task →
  ∃ d,
    IntegrationTask_to_dict task = Return d
    ∧ task_var "fetch build" "BUILD_NAME" d = Str <$> head (depends_on task)
    ∧ depends_on_entry d = Str <$> head (depends_on task)
    ∧ task_var "bootstrap mongo-orchestration" "VERSION" d
      = Some (version (tuple task))
    ∧ task_var "bootstrap mongo-orchestration" "TOPOLOGY" d
      = Some (topology (tuple task))
    ∧ task_var "bootstrap mongo-orchestration" "AUTH" d
      = Some (Str (display_value "auth" (auth (tuple task))))
    ∧ task_var "run tests" "AUTH" d
      = Some (Str (display_value "auth" (auth (tuple task))))
    ∧ task_var "bootstrap mongo-orchestration" "SSL" d
      = Some (Str (display_value "ssl" (ssl (tuple task))))
    ∧ task_var "run tests" "SSL" d
      = Some (Str (display_value "ssl" (ssl (tuple task))))
    ∧ task_var "run tests" "VALGRIND" d
      = Some (Str (if truthy (valgrind (tuple task)) then "on" else "off"))
    ∧ task_var "run tests" "ASAN" d
      = Some (Str (if truthy (asan (tuple task)) then "on" else "off")).
Proof.
  intros (d & Hd & _ & Hvars)%generated_dict.
  exists d. split; [exact Hd | exact Hvars].
Qed.

Lemma X15_integration_dict_vars_witness :
  ∃ d,
    IntegrationTask_to_dict valgrind_scenario_task = Return d
    ∧ task_var "fetch build" "BUILD_NAME" d
      = Some (Str "debug-compile-valgrind")
    ∧ depends_on_entry d = Some (Str "debug-compile-valgrind").
Proof.
  destruct (@X15_integration_dict_vars insertion_order
              valgrind_scenario_task valgrind_scenario_generated)
    as (d & Hd & Hfetch & Hentry & _).
  exists d. split; [exact Hd|]. split; [exact Hfetch | exact Hentry].
Defined.

(** (X16) The serialised form of a generated authentication task: its
    keys are name, tags, [depends_on] and the commands; its commands are
    [fetch build], for the compile task keyed by the sasl and ssl display
    tokens that the [depends_on] entry names, and [run auth tests]. *)
Theorem X16_auth_dict_shape `{SetIteration} (task : Task AuthTask) :
  generated make_auth_test_tasks task →
  ∃ d,
    AuthTask_to_dict task = Return d
    ∧ OD_keys (close d) = ["name"; "tags"; "depends_on"; "commands"]
    ∧ command_funcs d
      = [Some (Str "fetch build"); Some (Str "run auth tests")]
    ∧ task_var "fetch build" "BUILD_NAME" d
      = Some (Str ("debug-compile-"
                   +:+ display_value "sasl" (auth_sasl (tuple task))
                   +:+ "-" +:+ display_value "ssl" (auth_ssl (tuple task))))
    ∧ depends_on_entry d
      = Some (Str ("debug-compile-"
                   +:+ display_value "sasl" (auth_sasl (tuple task))
                   +:+ "-" +:+ display_value "ssl" (auth_ssl (tuple task)))).
Proof.
  intros (c & Hc & Hr & Hd)%generated_auth.
  pose proof (proj1 (Forall_forall _ _) accepted_auth_dicts c) as Hdict.
  specialize (Hdict ltac:(by apply list_elem_of_filter)).
  cbv beta in Hdict. rewrite Hd in Hdict. simpl in Hdict.
  destruct (run (AuthTask_to_dict task)) as [d|] eqn:Hrun; [|done].
  exists d. split; [by apply run_Some | exact Hdict].
Qed.

Lemma X16_auth_dict_shape_witness :
  ∃ d,
    AuthTask_to_dict
      {| tuple := mkAuthTask (Str "sspi") (Str "winssl");
         tags := {[ Str "authentication-tests"; Str "winssl"; Str "sspi" ]};
         options := [];
         depends_on := ["debug-compile-sspi-winssl"] |}
    = Return d
    ∧ command_funcs d
      = [Some (Str "fetch build"); Some (Str "run auth tests")].
Proof.
  destruct (@X16_auth_dict_shape insertion_order
              {| tuple := mkAuthTask (Str "sspi") (Str "winssl");
                 tags := {[ Str "authentication-tests"; Str "winssl";
                            Str "sspi" ]};
                 options := [];
                 depends_on := ["debug-compile-sspi-winssl"] |})
    as (d & Hd & _ & Hfuncs & _).
  - apply generated_auth. exists (mkAuthTask (Str "sspi") (Str "winssl")).
    split; [apply (bool_decide_unpack _); vm_compute; reflexivity|].
    split; [reflexivity | apply auth_derive_eq].
  - exists d. split; [exact Hd | exact Hfuncs].
Defined.
